(** * The conversation controller of the chat widget (script.js)

    A shallow embedding of [frontend/static/next_version/js/script.js]:
    the widget state closed over by the [DOMContentLoaded] handler, the
    message life cycle ([handleUserMessage], [sendUserMessage]), the
    response dispatcher ([processResponse]) and the two renderers
    ([renderProductResponse], [renderOrderResponse]).

    Conventions.
    - A JavaScript string is a [string] holding its UTF-8 encoding.
    - A JavaScript number is an IEEE 754 binary64 value, [float].
    - An optional property is an [option]; [None] reads as [undefined].
    - DOM mutation, [fetch] and [console] calls are explicit state passing
      over [World]; every such call is also recorded, in program order, in
      the [effects] log of the world.
    - An [await] splits an [async function] in the part run up to the
      suspension and the continuation run when the promise settles. *)

From Stdlib Require Import String Ascii List Bool Arith NArith Lia HexString.
From Stdlib Require Import Floats.PrimFloat.
Import ListNotations.
Open Scope string_scope.

Set Implicit Arguments.

(* ================================================================== *)
(** ** JavaScript primitives used by the script *)

Module Js.

(** Code points of ECMAScript [WhiteSpace] and [LineTerminator] that
    are one byte long in UTF-8: TAB, LF, VT, FF, CR, SP. *)
Definition is_ws1 (c : ascii) : bool :=
  existsb (N.eqb (N_of_ascii c)) [9; 10; 11; 12; 13; 32]%N.

(** U+00A0 (no-break space), two bytes. *)
Definition is_ws2 (c1 c2 : ascii) : bool :=
  (N_of_ascii c1 =? 194)%N && (N_of_ascii c2 =? 160)%N.

(** Three-byte white space: U+1680, U+2000..U+200A, U+2028, U+2029,
    U+202F, U+205F, U+3000 and U+FEFF. *)
Definition is_ws3 (c1 c2 c3 : ascii) : bool :=
  let a := N_of_ascii c1 in
  let b := N_of_ascii c2 in
  let c := N_of_ascii c3 in
  ((a =? 225) && (b =? 154) && (c =? 128))%N
  || ((a =? 226) && (b =? 128)
      && (((128 <=? c) && (c <=? 138)) || (c =? 168) || (c =? 169)
          || (c =? 175)))%N
  || ((a =? 226) && (b =? 129) && (c =? 159))%N
  || ((a =? 227) && (b =? 128) && (c =? 128))%N
  || ((a =? 239) && (b =? 187) && (c =? 191))%N.

(** [String.prototype.trimStart]. *)
Fixpoint trimStart (s : string) : string :=
  match s with
  | EmptyString => EmptyString
  | String c1 r1 =>
      if is_ws1 c1 then trimStart r1
      else
        match r1 with
        | EmptyString => s
        | String c2 r2 =>
            if is_ws2 c1 c2 then trimStart r2
            else
              match r2 with
              | EmptyString => s
              | String c3 r3 =>
                  if is_ws3 c1 c2 c3 then trimStart r3 else s
              end
        end
  end.

(** A string made of white space only. *)
Definition blank (s : string) : bool :=
  match trimStart s with EmptyString => true | _ => false end.

(** [String.prototype.trimEnd]: the longest blank suffix is dropped. *)
Fixpoint trimEnd (s : string) : string :=
  match s with
  | EmptyString => EmptyString
  | String c r => if blank s then EmptyString else String c (trimEnd r)
  end.

(** [String.prototype.trim]. *)
Definition trim (s : string) : string := trimEnd (trimStart s).

(** [ToBoolean] on a string: only the empty string is falsy. *)
Definition truthy_string (s : string) : bool := negb (s =? "").

(** [ToBoolean] on a number: [+0], [-0] and [NaN] are falsy. *)
Definition truthy_number (x : float) : bool :=
  negb (PrimFloat.eqb x 0%float) && negb (PrimFloat.is_nan x).

(** [ToBoolean] on an optional property ([undefined] is falsy). *)
Definition truthy_opt {A : Type} (t : A -> bool) (o : option A) : bool :=
  match o with
  | Some a => t a
  | None => false
  end.

(** The value of an optional property when it is truthy. *)
Definition truthy_value {A : Type} (t : A -> bool) (o : option A)
  : option A :=
  match o with
  | Some a => if t a then Some a else None
  | None => None
  end.

(** [`${a}`] where [a] is an optional string property. *)
Definition interpolate (o : option string) : string :=
  match o with
  | Some s => s
  | None => "undefined"
  end.

(** [a || b] where [a] is an optional property and [b] a value. *)
Definition or_else {A : Type} (t : A -> bool) (o : option A) (b : A) : A :=
  match o with
  | Some a => if t a then a else b
  | None => b
  end.

(** The own and inherited members every object literal takes from
    [Object.prototype]; each of them is a function or an object, hence
    truthy. *)
Definition object_prototype_members : list string :=
  [ "constructor"; "hasOwnProperty"; "isPrototypeOf";
    "propertyIsEnumerable"; "toLocaleString"; "toString"; "valueOf";
    "__proto__"; "__defineGetter__"; "__defineSetter__";
    "__lookupGetter__"; "__lookupSetter__" ].

(** The result of reading [obj[key]] on an object literal whose own
    properties hold strings. *)
Inductive Property : Type :=
| Own (v : string)
| Inherited (name : string)
| Undefined.

Fixpoint own_property (obj : list (string * string)) (key : string)
  : option string :=
  match obj with
  | [] => None
  | (k, v) :: rest => if k =? key then Some v else own_property rest key
  end.

(** [obj[key]]: own properties first, then the prototype chain. *)
Definition get (obj : list (string * string)) (key : string) : Property :=
  match own_property obj key with
  | Some v => Own v
  | None =>
      if existsb (String.eqb key) object_prototype_members
      then Inherited key
      else Undefined
  end.

End Js.

(* ================================================================== *)
(** ** Data exchanged with the remote endpoint *)

(** [price_range.minimum_price.regular_price] of a product. *)
Record Price : Type := { value : float; price_currency : string }.
Record MinimumPrice : Type := { regular_price : option Price }.
Record PriceRange : Type := { minimum_price : option MinimumPrice }.
Record Image : Type := { url : option string }.

Record Product : Type := {
  sku : string;
  product_name : string;
  small_image : option Image;
  price_range : option PriceRange
}.

(** The value of [data.results[keyword]]. *)
Record KeywordResult : Type := {
  error : option string;
  total_count : float;
  products : option (list Product)
}.

Record OrderItem : Type := {
  item_name : string;
  quantity : float;
  price : float
}.

(** [response.data] as the two renderers read it: the properties of a
    product payload ([results]) and of an order payload (the others),
    each absent from the payload of the other kind.  [results] lists the
    enumerable keys of [data.results] in the order [for ... in] visits
    them; an absent [results] enumerates nothing. *)
Record Data : Type := {
  results : option (list (string * KeywordResult));
  order_id : option string;
  status : option string;
  order_date : option string;
  currency : option string;
  items : option (list OrderItem);
  total : option float
}.

(** The decoded body of a successful reply. *)
Record Response : Type := {
  message : string;
  type : string;
  data : option Data
}.

Inductive JsError : Type :=
| TypeError (msg : string)
| HttpError (status_code : nat)       (* new Error(`HTTP error! Status: ...`) *)
| NetworkError (msg : string)         (* fetch rejects *)
| SyntaxError (msg : string).         (* response.json() rejects *)

(** How a statement list ends: normally, or by a [throw]. *)
Inductive Completion (A : Type) : Type :=
| Normal (a : A)
| Throw (e : JsError).
Arguments Normal {A} a.
Arguments Throw {A} e.

Definition is_normal {A : Type} (c : Completion A) : bool :=
  match c with Normal _ => true | Throw _ => false end.

Record RequestBody : Type := {
  body_message : string;
  session_id : string;
  user_id : option string
}.

Inductive Request : Type :=
| Head (target : string)
| Post (target : string) (body : RequestBody).

(** A settled [fetch] promise.  [json] is what [response.json()] settles
    to: the decoded body, or a rejection for an undecodable one. *)
Record HttpResponse : Type := {
  http_status : nat;
  json : Completion Response
}.

(** [response.ok]: the status is in the range 200-299. *)
Definition ok (r : HttpResponse) : bool :=
  ((200 <=? http_status r) && (http_status r <=? 299))%nat.

Inductive FetchOutcome : Type :=
| Rejected (e : JsError)
| Resolved (r : HttpResponse).

(* ================================================================== *)
(** ** What the widget displays *)

(** [Intl.NumberFormat('vi-VN').format(price)], kept symbolic. *)
Inductive LocalizedNumber : Type := ViVN (x : float).

Definition formatPrice (price : float) : LocalizedNumber := ViVN price.

Inductive PriceLabel : Type :=
| Amount (n : LocalizedNumber) (cur : string)   (* `${formatPrice(v)} ${c}` *)
| ContactUs.                                    (* "Liên hệ" *)

Record ProductCard : Type := {
  card_src : string;
  card_name : string;
  card_sku : string;
  card_price : PriceLabel
}.

(** One piece of markup appended to [html] by an iteration of the loop
    of [renderProductResponse]. *)
Inductive ProductBlock : Type :=
| ErrorMessage (keyword err : string)
| NoResults (keyword : string)
| ProductSection (keyword : string) (count : float) (cards : list ProductCard).

(** The value substituted for [${translateOrderStatus(data.status)}]. *)
Inductive StatusLabel : Type :=
| LabelText (s : string)
| LabelInherited (member : string)    (* a member of Object.prototype *)
| LabelUndefined.

Record OrderLine : Type := {
  line_name : string;
  line_quantity : float;
  line_total : LocalizedNumber;
  line_currency : string
}.

Record OrderView : Type := {
  view_order_id : string;
  view_status_class : string;
  view_status_label : StatusLabel;
  view_order_date : string;
  view_items : list OrderLine;
  view_total : LocalizedNumber;
  view_currency : string
}.

(** The [innerHTML] of a response container. *)
Inductive Html : Type :=
| Empty
| ProductResults (blocks : list ProductBlock)
| OrderInfo (view : OrderView).

Record Container : Type := {
  active : bool;          (* classList contains "active" *)
  innerHTML : Html
}.

Inductive ChatMessage : Type :=
| UserMessage (text : string)
| BotMessage (text : string) (includeQuickActions : bool).

Inductive Role : Type := user | bot.

(** An element of [conversationHistory]. *)
Record HistoryEntry : Type := {
  role : Role;
  entry_message : string;
  entry_type : option string;
  entry_data : option Data
}.

Inductive ContainerId : Type := productContainer | orderContainer.

(** The calls with an effect outside the closure, in program order. *)
Inductive Effect : Type :=
| SetInputValue (v : string)
| SetSendDisabled (b : bool)
| AppendChat (m : ChatMessage)
| PushHistory (e : HistoryEntry)
| SetIsTyping (b : bool)
| SetIndicator (b : bool)
| Fetch (r : Request)
| SetActive (c : ContainerId) (b : bool)
| SetInnerHTML (c : ContainerId) (h : Html)
| SetOnline (b : bool)
| ConsoleLog (s : string)
| ConsoleError (e : JsError).

(** The state closed over by the [DOMContentLoaded] handler together
    with the part of the document it writes. *)
Record World : Type := {
  API_URL : string;
  sessionId : string;
  userId : option string;
  chatInput : string;                          (* chatInput.value *)
  sendButton_disabled : bool;
  isTyping : bool;
  typingIndicator : bool;                      (* has class "active" *)
  conversationHistory : list HistoryEntry;
  chatWindow : list ChatMessage;
  product : Container;
  order : Container;
  online : option bool;                        (* .connection-status *)
  effects : list Effect
}.

(** The widget right after the handler has declared its state. *)
Definition initial (session : string) (input : string) : World := {|
  API_URL := "http://localhost:5000/chat";
  sessionId := session;
  userId := None;
  chatInput := input;
  sendButton_disabled := false;
  isTyping := false;
  typingIndicator := false;
  conversationHistory := [];
  chatWindow := [];
  product := {| active := false; innerHTML := Empty |};
  order := {| active := false; innerHTML := Empty |};
  online := None;
  effects := []
|}.

(* ================================================================== *)
(** ** Statements: state passing with exceptions *)

Definition M (A : Type) : Type := World -> Completion A * World.

Definition ret {A : Type} (a : A) : M A := fun w => (Normal a, w).

Definition bind {A B : Type} (m : M A) (k : A -> M B) : M B :=
  fun w =>
    match m w with
    | (Normal a, w') => k a w'
    | (Throw e, w') => (Throw e, w')
    end.

(** A pure computation that may throw, run as a statement. *)
Definition lift {A : Type} (c : Completion A) : M A := fun w => (c, w).

(** [try { body } catch (error) { handler }]. *)
Definition try_catch {A : Type} (body : M A) (handler : JsError -> M A)
  : M A :=
  fun w =>
    match body w with
    | (Normal a, w') => (Normal a, w')
    | (Throw e, w') => handler e w'
    end.

Declare Scope js_scope.
Delimit Scope js_scope with js.
Notation "x <- c1 ;; c2" := (bind c1 (fun x => c2))
  (at level 61, c1 at next level, right associativity) : js_scope.
Notation "c1 ;; c2" := (bind c1 (fun _ => c2))
  (at level 61, right associativity) : js_scope.

(** The world after a statement, and how the statement ended. *)
Definition exec {A : Type} (m : M A) (w : World) : World := snd (m w).
Definition outcome {A : Type} (m : M A) (w : World) : Completion A :=
  fst (m w).

(** *** Assignments *)

Definition record (e : Effect) (w : World) : World := {|
  API_URL := API_URL w; sessionId := sessionId w; userId := userId w;
  chatInput := chatInput w; sendButton_disabled := sendButton_disabled w;
  isTyping := isTyping w; typingIndicator := typingIndicator w;
  conversationHistory := conversationHistory w; chatWindow := chatWindow w;
  product := product w; order := order w; online := online w;
  effects := (effects w ++ [e])%list
|}.

Definition with_chatInput (v : string) (w : World) : World := {|
  API_URL := API_URL w; sessionId := sessionId w; userId := userId w;
  chatInput := v; sendButton_disabled := sendButton_disabled w;
  isTyping := isTyping w; typingIndicator := typingIndicator w;
  conversationHistory := conversationHistory w; chatWindow := chatWindow w;
  product := product w; order := order w; online := online w;
  effects := effects w
|}.

Definition with_sendButton_disabled (b : bool) (w : World) : World := {|
  API_URL := API_URL w; sessionId := sessionId w; userId := userId w;
  chatInput := chatInput w; sendButton_disabled := b;
  isTyping := isTyping w; typingIndicator := typingIndicator w;
  conversationHistory := conversationHistory w; chatWindow := chatWindow w;
  product := product w; order := order w; online := online w;
  effects := effects w
|}.

Definition with_isTyping (b : bool) (w : World) : World := {|
  API_URL := API_URL w; sessionId := sessionId w; userId := userId w;
  chatInput := chatInput w; sendButton_disabled := sendButton_disabled w;
  isTyping := b; typingIndicator := typingIndicator w;
  conversationHistory := conversationHistory w; chatWindow := chatWindow w;
  product := product w; order := order w; online := online w;
  effects := effects w
|}.

Definition with_typingIndicator (b : bool) (w : World) : World := {|
  API_URL := API_URL w; sessionId := sessionId w; userId := userId w;
  chatInput := chatInput w; sendButton_disabled := sendButton_disabled w;
  isTyping := isTyping w; typingIndicator := b;
  conversationHistory := conversationHistory w; chatWindow := chatWindow w;
  product := product w; order := order w; online := online w;
  effects := effects w
|}.

Definition with_conversationHistory (h : list HistoryEntry) (w : World)
  : World := {|
  API_URL := API_URL w; sessionId := sessionId w; userId := userId w;
  chatInput := chatInput w; sendButton_disabled := sendButton_disabled w;
  isTyping := isTyping w; typingIndicator := typingIndicator w;
  conversationHistory := h; chatWindow := chatWindow w;
  product := product w; order := order w; online := online w;
  effects := effects w
|}.

Definition with_chatWindow (c : list ChatMessage) (w : World) : World := {|
  API_URL := API_URL w; sessionId := sessionId w; userId := userId w;
  chatInput := chatInput w; sendButton_disabled := sendButton_disabled w;
  isTyping := isTyping w; typingIndicator := typingIndicator w;
  conversationHistory := conversationHistory w; chatWindow := c;
  product := product w; order := order w; online := online w;
  effects := effects w
|}.

Definition with_containers (p o : Container) (w : World) : World := {|
  API_URL := API_URL w; sessionId := sessionId w; userId := userId w;
  chatInput := chatInput w; sendButton_disabled := sendButton_disabled w;
  isTyping := isTyping w; typingIndicator := typingIndicator w;
  conversationHistory := conversationHistory w; chatWindow := chatWindow w;
  product := p; order := o; online := online w;
  effects := effects w
|}.

Definition with_online (b : bool) (w : World) : World := {|
  API_URL := API_URL w; sessionId := sessionId w; userId := userId w;
  chatInput := chatInput w; sendButton_disabled := sendButton_disabled w;
  isTyping := isTyping w; typingIndicator := typingIndicator w;
  conversationHistory := conversationHistory w; chatWindow := chatWindow w;
  product := product w; order := order w; online := Some b;
  effects := effects w
|}.

Definition container (c : ContainerId) (w : World) : Container :=
  match c with
  | productContainer => product w
  | orderContainer => order w
  end.

Definition with_container (c : ContainerId) (x : Container) (w : World)
  : World :=
  match c with
  | productContainer => with_containers x (order w) w
  | orderContainer => with_containers (product w) x w
  end.

(** *** Primitive statements *)

Definition perform (e : Effect) (f : World -> World) : M unit :=
  fun w => (Normal tt, record e (f w)).

(** [chatInput.value = v] *)
Definition set_value (v : string) : M unit :=
  perform (SetInputValue v) (with_chatInput v).

(** [sendButton.disabled = b] *)
Definition set_disabled (b : bool) : M unit :=
  perform (SetSendDisabled b) (with_sendButton_disabled b).

(** [chatWindow.appendChild(messageElement); scrollToBottom()] *)
Definition appendChild (m : ChatMessage) : M unit :=
  perform (AppendChat m) (fun w => with_chatWindow (chatWindow w ++ [m])%list w).

(** [conversationHistory.push(entry)] *)
Definition push (entry : HistoryEntry) : M unit :=
  perform (PushHistory entry)
     (fun w =>
        with_conversationHistory (conversationHistory w ++ [entry])%list w).

(** [isTyping = b] *)
Definition set_isTyping (b : bool) : M unit :=
  perform (SetIsTyping b) (with_isTyping b).

(** [typingIndicator.classList.add("active")] when [b], [remove] otherwise *)
Definition set_indicator (b : bool) : M unit :=
  perform (SetIndicator b) (with_typingIndicator b).

(** [statusIndicator]: class [online] or [offline] and its status text *)
Definition set_online (b : bool) : M unit :=
  perform (SetOnline b) (with_online b).

(** [fetch(...)]: the request leaves; the promise settles later. *)
Definition fetch (r : Request) : M unit :=
  perform (Fetch r) (fun w => w).

(** [c.classList.add("active")] and [c.classList.remove("active")] *)
Definition classList_active (c : ContainerId) (b : bool) : M unit :=
  perform (SetActive c b)
     (fun w =>
        with_container c
          {| active := b; innerHTML := innerHTML (container c w) |} w).

(** [c.innerHTML = h] *)
Definition set_innerHTML (c : ContainerId) (h : Html) : M unit :=
  perform (SetInnerHTML c h)
     (fun w =>
        with_container c
          {| active := active (container c w); innerHTML := h |} w).

Definition console_log (s : string) : M unit :=
  perform (ConsoleLog s) (fun w => w).
Definition console_error (e : JsError) : M unit :=
  perform (ConsoleError e) (fun w => w).

(* ================================================================== *)
(** ** The functions of the script *)

Open Scope js_scope.

(** The text shown when the exchange fails (script.js, line 139). *)
Definition failure_notice : string :=
  "Xin lỗi, tôi không thể xử lý yêu cầu của bạn lúc này. Vui lòng thử lại sau.".

(** The text shown when the service is unreachable (line 69). *)
Definition offline_notice : string :=
  "Xin lỗi, dịch vụ hiện đang ngoại tuyến. Vui lòng thử lại sau hoặc liên hệ bộ phận hỗ trợ.".

Definition updateSendButtonState : M unit :=
  fun w =>
    (if Js.trim (chatInput w) =? "" then set_disabled true
     else set_disabled false) w.

Definition setTypingState (typing : bool) : M unit :=
  set_isTyping typing ;;
  (if typing then set_indicator true else set_indicator false).

Definition addUserMessageToChat (text : string) : M unit :=
  appendChild (UserMessage text).

Definition addBotMessageToChat (text : string) (includeQuickActions : bool)
  : M unit :=
  appendChild (BotMessage text includeQuickActions).

Definition hideAllResponseContainers : M unit :=
  classList_active productContainer false ;;
  classList_active orderContainer false ;;
  set_innerHTML productContainer Empty ;;
  set_innerHTML orderContainer Empty.

(** *** The order renderer *)

Definition statusMap : list (string * string) :=
  [ ("processing", "Đang xử lý");
    ("pending", "Chờ xác nhận");
    ("pending_payment", "Chờ thanh toán");
    ("on_hold", "Tạm giữ");
    ("completed", "Hoàn thành");
    ("canceled", "Đã hủy");
    ("refunded", "Đã hoàn tiền");
    ("failed", "Thất bại");
    ("shipped", "Đang giao hàng") ].

(** [return statusMap[status] || status;], for a [status] that is a
    string or [undefined].  The key read for [undefined] is "undefined",
    which the table and its prototype do not have. *)
Definition translateOrderStatus (status : option string) : StatusLabel :=
  match status with
  | Some s =>
      match Js.get statusMap s with
      | Js.Own label =>
          if Js.truthy_string label then LabelText label else LabelText s
      | Js.Inherited member => LabelInherited member
      | Js.Undefined => LabelText s
      end
  | None => LabelUndefined
  end.

(** [typeof data.currency !== 'undefined' ? data.currency : 'VND'] *)
Definition currency_or_VND (data : Data) : string :=
  match currency data with
  | Some c => c
  | None => "VND"
  end.

(** The body of [data.items.forEach(item => ...)], on the two variables
    it updates: [itemsHTML] and the local [total], here [sum]. *)
Definition order_item_step (data : Data)
  (acc : list OrderLine * float) (item : OrderItem) : list OrderLine * float :=
  let '(itemsHTML, sum) := acc in
  let itemTotal := PrimFloat.mul (price item) (quantity item) in
  let sum := PrimFloat.add sum itemTotal in
  ((itemsHTML ++
     [ {| line_name := item_name item;
          line_quantity := quantity item;
          line_total := formatPrice itemTotal;
          line_currency := currency_or_VND data |} ])%list,
   sum).

(** Lines 332-347: [itemsHTML] and the local [total] when the template is
    built. *)
Definition order_items (data : Data) : list OrderLine * float :=
  let itemsHTML := [] in
  let sum := 0%float in
  match items data with
  | Some l =>
      if (0 <? List.length l)%nat
      then fold_left (order_item_step data) l (itemsHTML, sum)
      else (itemsHTML, sum)
  | None => (itemsHTML, sum)
  end.

(** Lines 349-377: the template literal [orderHTML]. *)
Definition orderHTML (data : Data) : OrderView :=
  let '(itemsHTML, sum) := order_items data in
  {| view_order_id := Js.interpolate (order_id data);
     view_status_class := Js.interpolate (status data);
     view_status_label := translateOrderStatus (status data);
     view_order_date := Js.or_else Js.truthy_string (order_date data) "N/A";
     view_items := itemsHTML;
     view_total := formatPrice (Js.or_else Js.truthy_number (total data) sum);
     view_currency := currency_or_VND data |}.

Definition renderOrderResponse (data : Data) : M unit :=
  classList_active orderContainer true ;;
  set_innerHTML orderContainer (OrderInfo (orderHTML data)).

Definition handleOrderAction (action orderId : string) : M unit :=
  if action =? "track" then
    addBotMessageToChat
      ("Đơn hàng #" ++ orderId ++
       " đang trong quá trình vận chuyển. Dự kiến giao hàng trong 3-5 ngày làm việc.")
      false
  else if action =? "cancel" then
    addBotMessageToChat
      ("Yêu cầu hủy đơn hàng #" ++ orderId ++
       " đã được ghi nhận. Bộ phận CSKH sẽ liên hệ với bạn trong thời gian sớm nhất.")
      false
  else ret tt.

(** *** The product renderer *)

(** [product.price_range?.minimum_price?.regular_price] *)
Definition regular_price_of (product : Product) : option Price :=
  match price_range product with
  | Some range =>
      match minimum_price range with
      | Some minimum => regular_price minimum
      | None => None
      end
  | None => None
  end.

(** [product.small_image?.url] *)
Definition small_image_url (product : Product) : option string :=
  match small_image product with
  | Some image => url image
  | None => None
  end.

(** The body of [result.products.forEach(product => ...)]: one card. *)
Definition product_card (product : Product) : ProductCard :=
  let formattedPrice :=
    match regular_price_of product with
    | Some regular =>
        Amount (formatPrice (value regular)) (price_currency regular)
    | None => ContactUs
    end in
  {| card_src :=
       Js.or_else Js.truthy_string (small_image_url product)
         "placeholder-image.png";
     card_name := product_name product;
     card_sku := sku product;
     card_price := formattedPrice |}.

(** What [result.products.forEach] throws when [products] is absent. *)
Definition forEach_of_undefined : JsError :=
  TypeError "Cannot read properties of undefined (reading 'forEach')".

(** One iteration of [for (const keyword in data.results)]: what it
    appends to [html], or the [TypeError] of calling [forEach] on an
    absent [products]. *)
Definition render_keyword (keyword : string) (result : KeywordResult)
  : Completion ProductBlock :=
  match Js.truthy_value Js.truthy_string (error result) with
  | Some err => Normal (ErrorMessage keyword err)
  | None =>
      if PrimFloat.eqb (total_count result) 0%float
      then Normal (NoResults keyword)
      else
        match products result with
        | Some l =>
            Normal (ProductSection keyword (total_count result)
                      (map product_card l))
        | None => Throw forEach_of_undefined
        end
  end.

(** [for (const keyword in data.results) { ... }] on the variable [html];
    the iteration that throws ends the loop. *)
Fixpoint for_in_results (entries : list (string * KeywordResult))
  (html : list ProductBlock) : Completion (list ProductBlock) :=
  match entries with
  | [] => Normal html
  | (keyword, result) :: rest =>
      match render_keyword keyword result with
      | Normal block => for_in_results rest (html ++ [block])%list
      | Throw e => Throw e
      end
  end.

(** The enumerable keys of [data.results]. *)
Definition keys_of (data : Data) : list (string * KeywordResult) :=
  match results data with
  | Some entries => entries
  | None => []
  end.

Definition renderProductResponse (data : Data) : M unit :=
  classList_active productContainer true ;;
  html <- lift (for_in_results (keys_of data) []) ;;
  set_innerHTML productContainer (ProductResults html).

Definition handleAddToCart (sku : string) : M unit :=
  console_log ("Adding product with SKU " ++ sku ++ " to cart") ;;
  addBotMessageToChat
    ("Đã thêm sản phẩm có mã <strong>" ++ sku ++
     "</strong> vào giỏ hàng của bạn!")
    false.

(** *** The dispatcher *)

Definition processResponse (response : Response) : M unit :=
  hideAllResponseContainers ;;
  addBotMessageToChat (message response) false ;;
  match type response =? "product", data response with
  | true, Some d => renderProductResponse d
  | _, _ =>
      match type response =? "order", data response with
      | true, Some d => renderOrderResponse d
      | _, _ => ret tt
      end
  end.

(** *** Transport *)

(** [sendUserMessage] up to its first [await]: the request is sent. *)
Definition sendUserMessage (userMessage : string) : M unit :=
  fun w =>
    fetch (Post (API_URL w)
             {| body_message := userMessage;
                session_id := sessionId w;
                user_id := userId w |}) w.

(** [sendUserMessage] from the settled [fetch] on: lines 166-170.  No
    variable of the closure is read or written on the way. *)
Definition sendUserMessage_settled (o : FetchOutcome) : Completion Response :=
  match o with
  | Rejected e => Throw e
  | Resolved response =>
      if negb (ok response) then Throw (HttpError (http_status response))
      else json response
  end.

(** *** The conversation state machine *)

(** [handleUserMessage] up to its [await] (lines 97-118).  The result
    is the message whose reply is awaited, or [None] after the early
    [return]. *)
Definition handleUserMessage : M (option string) :=
  fun w =>
    let userMessage := Js.trim (chatInput w) in
    if negb (Js.truthy_string userMessage) || isTyping w then ret None w
    else
      ( set_value "" ;;
        updateSendButtonState ;;
        addUserMessageToChat userMessage ;;
        push {| role := user; entry_message := userMessage;
                entry_type := None; entry_data := None |} ;;
        setTypingState true ;;
        sendUserMessage userMessage ;;
        ret (Some userMessage) ) w.

(** [handleUserMessage] from the settled request on (lines 118-141):
    the rest of the [try] block and the [catch] block. *)
Definition handleUserMessage_settled (o : FetchOutcome) : M unit :=
  try_catch
    ( botResponse <- lift (sendUserMessage_settled o) ;;
      setTypingState false ;;
      processResponse botResponse ;;
      push {| role := bot; entry_message := message botResponse;
              entry_type := Some (type botResponse);
              entry_data := data botResponse |} )
    (fun error =>
       setTypingState false ;;
       addBotMessageToChat failure_notice false ;;
       console_error error).

(** *** Connectivity *)

Definition setOfflineStatus : M unit :=
  set_online false ;;
  addBotMessageToChat offline_notice false.

(** [checkAPIConnection] up to its [await]. *)
Definition checkAPIConnection : M unit :=
  fun w => fetch (Head (API_URL w)) w.

(** [checkAPIConnection] from the settled probe on. *)
Definition checkAPIConnection_settled (o : FetchOutcome) : M unit :=
  match o with
  | Resolved response =>
      if ok response then set_online true else setOfflineStatus
  | Rejected _ => setOfflineStatus
  end.

(** *** Session identity *)

(** [n.toString(16)] for a non-negative integer [n]. *)
Definition toString16 (n : N) : string :=
  match n with
  | N0 => "0"
  | Npos p => HexString.Raw.of_pos p ""
  end.

(** [template.replace(/[x]/g, function (c) { ... })]: every "x" is
    replaced, from left to right, by the result of one call of the
    function.  [random k] is the value of [Math.random() * 16 | 0] in
    call number [k]. *)
Fixpoint replace_x (template : string) (random : nat -> N) (k : nat)
  : string :=
  match template with
  | EmptyString => EmptyString
  | String c rest =>
      if (c =? "x")%char
      then toString16 (random k) ++ replace_x rest random (S k)
      else String c (replace_x rest random k)
  end.

Definition generateSessionId (random : nat -> N) : string :=
  replace_x "xxxx-xxxx-xxxx-xxxx" random 0.

(** *** The listeners *)

(** What the event loop can deliver to the widget. *)
Inductive Event : Type :=
| Submit                                  (* click on send, or Enter *)
| Input (v : string)                      (* the visitor edits the input *)
| ClearInput                              (* click on clear-input *)
| QuickAction (action : string)           (* click on a quick action *)
| ReplySettled (o : FetchOutcome)         (* the pending POST settles *)
| ProbeSettled (o : FetchOutcome)         (* the HEAD probe settles *)
| AddToCart (sku : string)                (* click on add-to-cart *)
| OrderAction (action orderId : string).  (* click on an order action *)

Definition drop {A : Type} (m : M A) : M unit := m ;; ret tt.

Definition listener (e : Event) : M unit :=
  match e with
  | Submit => drop handleUserMessage
  | Input v =>
      (fun w => (Normal tt, with_chatInput v w)) ;; updateSendButtonState
  | ClearInput => set_value "" ;; updateSendButtonState
  | QuickAction action => set_value action ;; drop handleUserMessage
  | ReplySettled o => handleUserMessage_settled o
  | ProbeSettled o => checkAPIConnection_settled o
  | AddToCart sku => handleAddToCart sku
  | OrderAction action orderId => handleOrderAction action orderId
  end.

(** The widget after a sequence of events. *)
Definition run (events : list Event) (w : World) : World :=
  fold_left (fun w e => exec (listener e) w) events w.

(** The body of the [DOMContentLoaded] handler: the probe is sent and
    the send button takes the state of the input. *)
Definition DOMContentLoaded : M unit :=
  checkAPIConnection ;;
  updateSendButtonState.

(* ================================================================== *)
(** ** Vocabulary of the properties *)

(** The amount of one order line: [unitPrice * quantity]. *)
Definition line_amount (item : OrderItem) : float :=
  PrimFloat.mul (price item) (quantity item).

(** The sum of [unitPrice * quantity] over the items, added up from
    zero in the order of the list. *)
Definition sum_of_lines (l : list OrderItem) : float :=
  fold_left PrimFloat.add (map line_amount l) 0%float.

(** The items of an order, none when the property is absent. *)
Definition items_of (data : Data) : list OrderItem :=
  match items data with
  | Some l => l
  | None => []
  end.

(** An order with two items and no [total] property. *)
Definition shipped_order : Data := {|
  results := None;
  order_id := Some "000000123";
  status := Some "shipped";
  order_date := None;
  currency := None;
  items := Some [ {| item_name := "Áo thun"; quantity := 2%float;
                     price := 150000%float |};
                  {| item_name := "Nón"; quantity := 1%float;
                     price := 45000.5%float |} ];
  total := None
|}.

(** The same order with an explicit [total] of 0. *)
Definition zero_total_order : Data := {|
  results := None;
  order_id := order_id shipped_order;
  status := status shipped_order;
  order_date := order_date shipped_order;
  currency := currency shipped_order;
  items := items shipped_order;
  total := Some 0%float
|}.

(** The entry reaches [result.products.forEach]: its [error] is falsy
    and its [total_count] is not zero. *)
Definition reaches_forEach (result : KeywordResult) : bool :=
  negb (Js.truthy_opt Js.truthy_string (error result))
  && negb (PrimFloat.eqb (total_count result) 0%float).

(** The entry has a [products] list whenever the loop iterates it. *)
Definition has_products_if_needed (result : KeywordResult) : bool :=
  implb (reaches_forEach result)
        (match products result with Some _ => true | None => false end).

(** A search reply: one keyword with a product, one without a match,
    one whose lookup failed. *)
Definition ao_thun : Product := {|
  sku := "A1";
  product_name := "Áo thun";
  small_image := None;
  price_range :=
    Some {| minimum_price :=
              Some {| regular_price :=
                        Some {| value := 150000%float;
                                price_currency := "VND" |} |} |}
|}.

Definition found : KeywordResult :=
  {| error := None; total_count := 1%float; products := Some [ao_thun] |}.

Definition not_found : KeywordResult :=
  {| error := None; total_count := 0%float; products := Some [] |}.

Definition lookup_failed : KeywordResult :=
  {| error := Some "timeout"; total_count := 0%float; products := None |}.

(** An entry that announces three products and carries no list. *)
Definition without_products : KeywordResult :=
  {| error := None; total_count := 3%float; products := None |}.

Definition search_of (entries : list (string * KeywordResult)) : Data := {|
  results := Some entries;
  order_id := None;
  status := None;
  order_date := None;
  currency := None;
  items := None;
  total := None
|}.

(** What [processResponse] renders after the reset and the chat text. *)
Inductive Surface : Type := NoSurface | ProductSurface | OrderSurface.

Definition surface_of (response : Response) : Surface :=
  match data response with
  | Some _ =>
      if type response =? "product" then ProductSurface
      else if type response =? "order" then OrderSurface
      else NoSurface
  | None => NoSurface
  end.

(** Runs the statements of the goal on the world at hand. *)
Ltac step_js :=
  cbv -[String.eqb String.append List.app for_in_results keys_of orderHTML].

(** Same, the fields of the world named. *)
Ltac run_js w := destruct w; step_js; rewrite <- ?app_assoc; cbn [List.app].

(** A search whose three keywords fail, match nothing and match one
    product. *)
Definition mixed_search : Data :=
  search_of [("quần", lookup_failed); ("xyz", not_found); ("áo", found)].

(** A product reply, dispatched after an order reply. *)
Definition product_reply : Response :=
  {| message := "Tôi tìm thấy 1 sản phẩm.";
     type := "product";
     data := Some (search_of [("áo", found); ("xyz", not_found)]) |}.

Definition order_reply : Response :=
  {| message := "Đây là thông tin đơn hàng của bạn.";
     type := "order";
     data := Some shipped_order |}.

(** The entries pushed to [conversationHistory]. *)
Definition user_turn (userMessage : string) : HistoryEntry :=
  {| role := user; entry_message := userMessage;
     entry_type := None; entry_data := None |}.

Definition bot_turn (response : Response) : HistoryEntry :=
  {| role := bot; entry_message := message response;
     entry_type := Some (type response); entry_data := data response |}.

(** The request built by [sendUserMessage]. *)
Definition post_of (userMessage : string) (w : World) : Request :=
  Post (API_URL w)
    {| body_message := userMessage; session_id := sessionId w;
       user_id := userId w |}.

(** The effects of the renderer that [processResponse] selects. *)
Definition rendering (response : Response) : list Effect :=
  match data response with
  | Some d =>
      if type response =? "product" then
        SetActive productContainer true
        :: match for_in_results (keys_of d) [] with
           | Normal html =>
               [SetInnerHTML productContainer (ProductResults html)]
           | Throw _ => []
           end
      else if type response =? "order" then
        [ SetActive orderContainer true;
          SetInnerHTML orderContainer (OrderInfo (orderHTML d)) ]
      else []
  | None => []
  end.

(** The effects of [processResponse]. *)
Definition dispatching (response : Response) : list Effect :=
  [ SetActive productContainer false;
    SetActive orderContainer false;
    SetInnerHTML productContainer Empty;
    SetInnerHTML orderContainer Empty;
    AppendChat (BotMessage (message response) false) ]
  ++ rendering response.

(** The effects of a statement run on [w]. *)
Definition trace {A : Type} (m : M A) (w : World) : list Effect :=
  skipn (List.length (effects w)) (effects (exec m w)).

Definition is_turn_append (e : Effect) : bool :=
  match e with PushHistory _ => true | _ => false end.

Definition is_flag_flip (e : Effect) : bool :=
  match e with SetIsTyping _ => true | _ => false end.

Definition is_dispatch (e : Effect) : bool :=
  match e with SetActive _ _ | SetInnerHTML _ _ => true | _ => false end.

(** Some effect satisfying [p] comes before some effect satisfying [q]. *)
Fixpoint occurs_before (p q : Effect -> bool) (l : list Effect) : bool :=
  match l with
  | [] => false
  | e :: rest => (p e && existsb q rest) || occurs_before p q rest
  end.

Ltac run_all w := destruct w; cbv -[List.app]; rewrite <- ?app_assoc.

(** A world in which a reply is awaited, and three ways for the request
    to settle. *)
Definition awaiting : World :=
  exec handleUserMessage (initial "a1b2-c3d4-e5f6-0789" "Kiểm tra đơn hàng").

Definition replied : FetchOutcome :=
  Resolved {| http_status := 200; json := Normal order_reply |}.

Definition unreachable : FetchOutcome :=
  Rejected (NetworkError "Failed to fetch").

Definition server_error : FetchOutcome :=
  Resolved {| http_status := 500; json := Normal order_reply |}.

Definition undecodable : FetchOutcome :=
  Resolved {| http_status := 200;
              json := Throw (SyntaxError "Unexpected token < in JSON") |}.

(** The transport fails with [e]: the request is rejected (network
    error), the status of the response is not a success, or its body
    cannot be decoded. *)
Definition transport_failure (o : FetchOutcome) (e : JsError) : Prop :=
  o = Rejected e
  \/ (exists r, o = Resolved r /\ ok r = false
                /\ e = HttpError (http_status r))
  \/ (exists r, o = Resolved r /\ ok r = true /\ json r = Throw e).

(** The order of effects C2 asks of a transition. *)
Definition append_then_flip_then_dispatch (t : list Effect) : Prop :=
  occurs_before is_turn_append is_flag_flip t = true
  /\ occurs_before is_flag_flip is_dispatch t = true.

(** A lower-case hexadecimal digit. *)
Definition is_hex (c : ascii) : bool :=
  existsb (Ascii.eqb c)
    [ "0"; "1"; "2"; "3"; "4"; "5"; "6"; "7"; "8"; "9";
      "a"; "b"; "c"; "d"; "e"; "f" ]%char.

(** [s] has the shape of [template]: a hexadecimal digit where the
    template has an "x", the character of the template elsewhere. *)
Fixpoint matches_template (template s : string) : bool :=
  match template, s with
  | EmptyString, EmptyString => true
  | String c t, String c' s' =>
      (if (c =? "x")%char then is_hex c' else (c' =? c)%char)
      && matches_template t s'
  | _, _ => false
  end.

(** A world that differs from [w] in the fields the script writes. *)
Definition world_of (w : World) (input : string)
  (disabled typing indicator : bool) (history : list HistoryEntry)
  (chat : list ChatMessage) (p o : Container) (on : option bool)
  (log : list Effect) : World := {|
  API_URL := API_URL w; sessionId := sessionId w; userId := userId w;
  chatInput := input; sendButton_disabled := disabled;
  isTyping := typing; typingIndicator := indicator;
  conversationHistory := history; chatWindow := chat;
  product := p; order := o; online := on;
  effects := log
|}.

(** A response container after [hideAllResponseContainers]. *)
Definition cleared : Container := {| active := false; innerHTML := Empty |}.

(** The response containers after [processResponse]. *)
Definition product_after (response : Response) : Container :=
  match surface_of response, data response with
  | ProductSurface, Some d =>
      {| active := true;
         innerHTML :=
           match for_in_results (keys_of d) [] with
           | Normal html => ProductResults html
           | Throw _ => Empty
           end |}
  | _, _ => cleared
  end.

Definition order_after (response : Response) : Container :=
  match surface_of response, data response with
  | OrderSurface, Some d =>
      {| active := true; innerHTML := OrderInfo (orderHTML d) |}
  | _, _ => cleared
  end.

(** How [processResponse] ends. *)
Definition dispatch_outcome (response : Response) : Completion unit :=
  match surface_of response, data response with
  | ProductSurface, Some d =>
      match for_in_results (keys_of d) [] with
      | Normal _ => Normal tt
      | Throw e => Throw e
      end
  | _, _ => Normal tt
  end.

(** The chat message that shows an entry of the history. *)
Definition chat_of (entry : HistoryEntry) : ChatMessage :=
  match role entry with
  | user => UserMessage (entry_message entry)
  | bot => BotMessage (entry_message entry) false
  end.

(** [l] is [l'] with some elements left out. *)
Inductive sublist {A : Type} : list A -> list A -> Prop :=
| sublist_nil : sublist [] []
| sublist_keep : forall x l l', sublist l l' -> sublist (x :: l) (x :: l')
| sublist_skip : forall x l l', sublist l l' -> sublist l (x :: l').

Definition is_post (e : Effect) : bool :=
  match e with Fetch (Post _ _) => true | _ => false end.

Definition is_fetch (e : Effect) : bool :=
  match e with Fetch _ => true | _ => false end.

Definition is_user_entry (entry : HistoryEntry) : bool :=
  match role entry with user => true | bot => false end.

Definition is_user_message (m : ChatMessage) : bool :=
  match m with UserMessage _ => true | BotMessage _ _ => false end.

(** The request comes from the widget [w]: a [HEAD] or a [POST] to its
    endpoint, the [POST] carrying its session and user identifiers. *)
Definition request_of (w : World) (e : Effect) : bool :=
  match e with
  | Fetch (Head target) => target =? API_URL w
  | Fetch (Post target body) =>
      (target =? API_URL w)
      && (session_id body =? sessionId w)
      && match user_id body, userId w with
         | None, None => true
         | Some a, Some b => a =? b
         | _, _ => false
         end
  | _ => true
  end.

(** The probe found the endpoint. *)
Definition connected (o : FetchOutcome) : bool :=
  match o with
  | Resolved response => ok response
  | Rejected _ => false
  end.

(** The line of the order panel for one item. *)
Definition order_line (data : Data) (item : OrderItem) : OrderLine :=
  {| line_name := item_name item;
     line_quantity := quantity item;
     line_total := formatPrice (line_amount item);
     line_currency := currency_or_VND data |}.

(** At most one response container is active, and a container that is
    not active is empty. *)
Definition one_surface (w : World) : Prop :=
  active (product w) && active (order w) = false
  /\ (active (product w) = false -> innerHTML (product w) = Empty)
  /\ (active (order w) = false -> innerHTML (order w) = Empty).

(** Every submission recorded in the history was shown in the chat and
    sent once. *)
Definition one_post_per_submission (w : World) : Prop :=
  List.length (filter is_post (effects w))
  = List.length (filter is_user_entry (conversationHistory w))
  /\ List.length (filter is_user_entry (conversationHistory w))
     = List.length (filter is_user_message (chatWindow w)).

(** A product reply whose second entry announces products and carries
    none. *)
Definition broken_reply : Response :=
  {| message := "Tôi tìm thấy vài sản phẩm.";
     type := "product";
     data := Some (search_of [("áo", found); ("giày", without_products)]) |}.

Definition broken : FetchOutcome :=
  Resolved {| http_status := 200; json := Normal broken_reply |}.

(** What a listener can do to the widget [w]: a change that sends no
    request and adds no entry and no user message; an accepted
    submission; or the settling of the request. *)
Inductive transition (w : World) : World -> Prop :=
| local_change :
    forall input disabled on notices log,
      filter is_user_message notices = [] ->
      filter is_fetch log = [] ->
      transition w
        (world_of w input disabled (isTyping w) (typingIndicator w)
           (conversationHistory w) (chatWindow w ++ notices)%list
           (product w) (order w) on (effects w ++ log)%list)
| submitted :
    forall userMessage log,
      isTyping w = false ->
      filter is_fetch log = [] ->
      transition w
        (world_of w "" true true true
           (conversationHistory w ++ [user_turn userMessage])%list
           (chatWindow w ++ [UserMessage userMessage])%list
           (product w) (order w) (online w)
           (effects w ++ log ++
            [ SetInputValue ""; SetSendDisabled true;
              AppendChat (UserMessage userMessage);
              PushHistory (user_turn userMessage);
              SetIsTyping true; SetIndicator true;
              Fetch (post_of userMessage w) ])%list)
| settled :
    forall o, transition w (exec (handleUserMessage_settled o) w).

(** States the world reached by the goal's transition in closed form. *)
Ltac as_world W :=
  match goal with
  | |- transition ?w ?x =>
      replace x with W
        by (destruct w; cbv -[List.app String.append];
            rewrite <- ?app_assoc; reflexivity)
  end.

(** The typing indicator is on exactly when a reply is awaited. *)
Definition indicator_shows_typing (w : World) : Prop :=
  typingIndicator w = isTyping w.

(** Every request sent so far comes from the widget. *)
Definition requests_carry_identity (w : World) : Prop :=
  forallb (request_of w) (effects w) = true.

(** The entries of the history appear in the chat window, in order. *)
Definition history_in_chat (w : World) : Prop :=
  sublist (map chat_of (conversationHistory w)) (chatWindow w).

(* ================================================================== *)
(** ** Properties *)

(** *** Rejected submissions *)

Lemma handleUserMessage_early_return :
  forall w : World,
    Js.trim (chatInput w) = "" \/ isTyping w = true ->
    handleUserMessage w = (Normal None, w).
Proof.
  intros w H. unfold handleUserMessage.
  destruct H as [H | H]; rewrite H.
  - reflexivity.
  - now rewrite orb_true_r.
Qed.

(** C1.  When the input is empty after trimming, or a reply is awaited
    ([isTyping] is true), [handleUserMessage] returns at once and leaves
    the whole widget as it was: [conversationHistory] gains no user
    entry, [isTyping] keeps its value, and the log of effects gains
    nothing, so no [fetch] is issued. *)
Theorem handleUserMessage_rejected_is_noop :
  forall w : World,
    Js.trim (chatInput w) = "" \/ isTyping w = true ->
    handleUserMessage w = (Normal None, w)
    /\ conversationHistory (exec handleUserMessage w) = conversationHistory w
    /\ isTyping (exec handleUserMessage w) = isTyping w
    /\ effects (exec handleUserMessage w) = effects w.
Proof.
  intros w H.
  pose proof (handleUserMessage_early_return w H) as E.
  unfold exec. rewrite E. repeat split.
Qed.

Lemma handleUserMessage_rejected_is_noop_witness :
  let w := initial "a1b2-c3d4-e5f6-0789" "   " in
  handleUserMessage w = (Normal None, w)
  /\ conversationHistory (exec handleUserMessage w) = conversationHistory w
  /\ isTyping (exec handleUserMessage w) = isTyping w
  /\ effects (exec handleUserMessage w) = effects w.
Proof.
  apply (handleUserMessage_rejected_is_noop
           (initial "a1b2-c3d4-e5f6-0789" "   ")).
  left. reflexivity.
Defined.

(** *** The order renderer *)

Lemma order_item_step_total :
  forall data l itemsHTML sum,
    snd (fold_left (order_item_step data) l (itemsHTML, sum))
    = fold_left PrimFloat.add (map line_amount l) sum.
Proof.
  intros data l.
  induction l as [| item l IH]; intros itemsHTML sum.
  - reflexivity.
  - cbn [fold_left map]. unfold order_item_step at 2.
    rewrite IH. reflexivity.
Qed.

Lemma order_items_total :
  forall data, snd (order_items data) = sum_of_lines (items_of data).
Proof.
  intros data. unfold order_items, items_of, sum_of_lines.
  destruct (items data) as [l |]; [| reflexivity].
  destruct l as [| item l]; [reflexivity |].
  change (0 <? List.length (item :: l))%nat with true. cbv iota.
  apply order_item_step_total.
Qed.

Lemma view_total_orderHTML :
  forall data,
    view_total (orderHTML data)
    = formatPrice
        (Js.or_else Js.truthy_number (total data)
           (sum_of_lines (items_of data))).
Proof.
  intros data. unfold orderHTML.
  rewrite <- order_items_total.
  destruct (order_items data) as [itemsHTML sum]. reflexivity.
Qed.

Lemma renderOrderResponse_innerHTML :
  forall data w,
    innerHTML (order (exec (renderOrderResponse data) w))
    = OrderInfo (orderHTML data).
Proof. reflexivity. Qed.

(** C6.  For an order whose [total] property is absent, the total put
    in the order panel is the sum over the items of [price * quantity]. *)
Theorem renderOrderResponse_total_absent :
  forall (data : Data) (w : World),
    total data = None ->
    exists view,
      innerHTML (order (exec (renderOrderResponse data) w)) = OrderInfo view
      /\ view_total view = formatPrice (sum_of_lines (items_of data)).
Proof.
  intros data w H.
  exists (orderHTML data). split.
  - apply renderOrderResponse_innerHTML.
  - rewrite view_total_orderHTML, H. reflexivity.
Qed.

Lemma renderOrderResponse_total_absent_witness :
  exists view,
    innerHTML
      (order (exec (renderOrderResponse shipped_order) (initial "s" "")))
    = OrderInfo view
    /\ view_total view = formatPrice (sum_of_lines (items_of shipped_order)).
Proof.
  apply (renderOrderResponse_total_absent shipped_order (initial "s" "")).
  reflexivity.
Defined.

(** C9.  The [total] property overrides the computed sum only when it
    is truthy: the displayed total is [data.total] exactly when that
    property is present and neither zero nor NaN, and for an order whose
    [total] is present and equal to 0 the displayed total is the sum of
    [price * quantity] over the items. *)
Theorem renderOrderResponse_total_zero :
  forall (data : Data) (w : World),
    (forall t, total data = Some t -> Js.truthy_number t = true ->
       view_total (orderHTML data) = formatPrice t)
    /\ (forall t, total data = Some t -> Js.truthy_number t = false ->
          view_total (orderHTML data)
          = formatPrice (sum_of_lines (items_of data)))
    /\ (total data = Some 0%float ->
        exists view,
          innerHTML (order (exec (renderOrderResponse data) w))
          = OrderInfo view
          /\ view_total view = formatPrice (sum_of_lines (items_of data))).
Proof.
  intros data w. repeat split.
  - intros t Ht Htruthy.
    rewrite view_total_orderHTML, Ht. cbn. now rewrite Htruthy.
  - intros t Ht Hfalsy.
    rewrite view_total_orderHTML, Ht. cbn. now rewrite Hfalsy.
  - intros Ht. exists (orderHTML data). split.
    + apply renderOrderResponse_innerHTML.
    + rewrite view_total_orderHTML, Ht. reflexivity.
Qed.

Lemma renderOrderResponse_total_zero_witness :
  exists view,
    innerHTML
      (order (exec (renderOrderResponse zero_total_order) (initial "s" "")))
    = OrderInfo view
    /\ view_total view = formatPrice 345000.5%float.
Proof.
  destruct (renderOrderResponse_total_zero zero_total_order (initial "s" ""))
    as [_ [_ H]].
  apply H. reflexivity.
Defined.

(** A status of the table is shown with its localized label. *)
Lemma translateOrderStatus_known :
  forall status label,
    In (status, label) statusMap ->
    translateOrderStatus (Some status) = LabelText label.
Proof.
  intros status label H. unfold statusMap in H. cbn [In] in H.
  repeat (destruct H as [H | H]; [injection H as <- <-; reflexivity |]).
  contradiction.
Qed.

(** A status that is neither a key of the table nor the name of a
    member of [Object.prototype] is shown as it is. *)
Lemma translateOrderStatus_unknown :
  forall status,
    Js.own_property statusMap status = None ->
    ~ In status Js.object_prototype_members ->
    translateOrderStatus (Some status) = LabelText status.
Proof.
  intros status Hown Hproto. unfold translateOrderStatus, Js.get.
  rewrite Hown.
  destruct (existsb (String.eqb status) Js.object_prototype_members) eqn:E;
    [| reflexivity].
  apply existsb_exists in E. destruct E as [m [Hin Heq]].
  apply String.eqb_eq in Heq. subst m. contradiction.
Qed.

(** C7, at the status ["constructor"].  It is not a key of the table,
    yet [statusMap["constructor"]] is the member inherited from
    [Object.prototype], a truthy value, so the function returns that
    member and not the status it was given. *)
Theorem translateOrderStatus_constructor :
  Js.own_property statusMap "constructor" = None
  /\ translateOrderStatus (Some "constructor") = LabelInherited "constructor"
  /\ translateOrderStatus (Some "constructor") <> LabelText "constructor".
Proof.
  repeat split; try reflexivity. discriminate.
Qed.

(** *** The product renderer *)

Lemma truthy_value_None :
  forall (A : Type) (t : A -> bool) (o : option A),
    Js.truthy_opt t o = false -> Js.truthy_value t o = None.
Proof.
  intros A t [a |]; cbn; [| reflexivity].
  intros H. now rewrite H.
Qed.

Lemma truthy_value_Some :
  forall (A : Type) (t : A -> bool) (o : option A),
    Js.truthy_opt t o = true -> exists a, o = Some a /\ Js.truthy_value t o = Some a.
Proof.
  intros A t [a |]; cbn; [| discriminate].
  intros H. exists a. now rewrite H.
Qed.

Lemma render_keyword_normal :
  forall keyword result,
    has_products_if_needed result = true ->
    exists block, render_keyword keyword result = Normal block.
Proof.
  intros keyword result. unfold has_products_if_needed, reaches_forEach, render_keyword.
  destruct (Js.truthy_opt Js.truthy_string (error result)) eqn:E.
  - destruct (truthy_value_Some _ _ E) as [err [_ ->]]. eauto.
  - rewrite (truthy_value_None _ _ E).
    destruct (PrimFloat.eqb (total_count result) 0) eqn:Z; [eauto |].
    destruct (products result); [eauto | discriminate].
Qed.

Lemma render_keyword_throw :
  forall keyword result,
    has_products_if_needed result = false ->
    render_keyword keyword result = Throw forEach_of_undefined.
Proof.
  intros keyword result. unfold has_products_if_needed, reaches_forEach, render_keyword.
  destruct (Js.truthy_opt Js.truthy_string (error result)) eqn:E;
    [discriminate |].
  rewrite (truthy_value_None _ _ E).
  destruct (PrimFloat.eqb (total_count result) 0) eqn:Z; [discriminate |].
  destruct (products result); [discriminate | reflexivity].
Qed.

Lemma for_in_results_normal :
  forall entries html,
    forallb (fun e => has_products_if_needed (snd e)) entries = true ->
    exists blocks,
      for_in_results entries html = Normal (html ++ blocks)%list
      /\ Forall2 (fun e block => render_keyword (fst e) (snd e) = Normal block)
           entries blocks.
Proof.
  induction entries as [| [keyword result] rest IH]; intros html H.
  - exists []. rewrite app_nil_r. split; [reflexivity | constructor].
  - cbn [forallb snd] in H. apply andb_true_iff in H. destruct H as [H1 H2].
    destruct (render_keyword_normal keyword result H1) as [block Hb].
    destruct (IH (html ++ [block])%list H2) as [blocks [Hrest Hall]].
    exists (block :: blocks). cbn [for_in_results]. rewrite Hb, Hrest.
    rewrite <- app_assoc. split; [reflexivity |].
    constructor; [exact Hb | exact Hall].
Qed.

Lemma for_in_results_throw :
  forall entries html,
    forallb (fun e => has_products_if_needed (snd e)) entries = false ->
    for_in_results entries html = Throw forEach_of_undefined.
Proof.
  induction entries as [| [keyword result] rest IH]; intros html H.
  - discriminate.
  - cbn [forallb snd] in H. cbn [for_in_results].
    destruct (has_products_if_needed result) eqn:E.
    + destruct (render_keyword_normal keyword result E) as [block ->].
      apply IH. exact H.
    + now rewrite (render_keyword_throw keyword result E).
Qed.

(** The body of the loop decides in this order: an error line when
    [error] is a non-empty string; failing that, the "no results" notice
    when [total_count] is zero; failing that, one section holding a card
    for each product of the entry. *)
Lemma render_keyword_priority :
  forall (keyword : string) (result : KeywordResult),
    (forall err,
        error result = Some err -> err <> "" ->
        render_keyword keyword result = Normal (ErrorMessage keyword err))
    /\ (Js.truthy_opt Js.truthy_string (error result) = false ->
        PrimFloat.eqb (total_count result) 0%float = true ->
        render_keyword keyword result = Normal (NoResults keyword))
    /\ (Js.truthy_opt Js.truthy_string (error result) = false ->
        PrimFloat.eqb (total_count result) 0%float = false ->
        forall l,
          products result = Some l ->
          render_keyword keyword result
          = Normal (ProductSection keyword (total_count result)
                      (map product_card l))).
Proof.
  intros keyword result. unfold render_keyword. repeat split.
  - intros err Herr Hne. rewrite Herr. cbn.
    unfold Js.truthy_string.
    destruct (String.eqb_spec err ""); [contradiction | reflexivity].
  - intros He Hz. rewrite (truthy_value_None _ _ He), Hz. reflexivity.
  - intros He Hz l Hl.
    rewrite (truthy_value_None _ _ He), Hz, Hl. reflexivity.
Qed.

(** The panel as a whole: when every entry that reaches [forEach] has
    its products, the panel shows one block for each keyword, in the
    order of enumeration. *)
Lemma renderProductResponse_blocks :
  forall data w,
    forallb (fun e => has_products_if_needed (snd e)) (keys_of data) = true ->
    exists blocks,
      innerHTML (product (exec (renderProductResponse data) w))
      = ProductResults blocks
      /\ Forall2 (fun e block => render_keyword (fst e) (snd e) = Normal block)
           (keys_of data) blocks.
Proof.
  intros data w H.
  destruct (for_in_results_normal (keys_of data) [] H) as [blocks [E Hall]].
  exists blocks. split; [| exact Hall].
  unfold renderProductResponse, exec, bind, lift.
  cbn. rewrite E. reflexivity.
Qed.

Lemma Forall2_nth_error :
  forall (A B : Type) (R : A -> B -> Prop) (l : list A) (l' : list B),
    Forall2 R l l' ->
    forall i a,
      nth_error l i = Some a ->
      exists b, nth_error l' i = Some b /\ R a b.
Proof.
  intros A B R l l' H. induction H as [| x y l l' Hxy _ IH]; intros i a Hi.
  - destruct i; discriminate Hi.
  - destruct i as [| i]; cbn [nth_error] in *.
    + injection Hi as <-. eauto.
    + exact (IH i a Hi).
Qed.

(** C5.  [renderProductResponse] fills the product container with
    exactly one block for each keyword entry of [data.results], at the
    entry's position, and the block is decided in this order: an error
    line when the entry carries an error (its [error] is a non-empty
    string); failing that, the "no results" notice, and no card, when
    [total_count] is zero; failing that, one section holding a card for
    each product of the entry.  This is the renderer's result whenever
    it ends normally, that is, when every entry that reaches [forEach]
    has its products. *)
Theorem renderProductResponse_keyword_priority :
  forall (data : Data) (w : World),
    forallb (fun e => has_products_if_needed (snd e)) (keys_of data) = true ->
    exists blocks,
      outcome (renderProductResponse data) w = Normal tt
      /\ product (exec (renderProductResponse data) w)
         = {| active := true; innerHTML := ProductResults blocks |}
      /\ List.length blocks = List.length (keys_of data)
      /\ forall i keyword result,
           nth_error (keys_of data) i = Some (keyword, result) ->
           (forall err,
               error result = Some err -> err <> "" ->
               nth_error blocks i = Some (ErrorMessage keyword err))
           /\ (Js.truthy_opt Js.truthy_string (error result) = false ->
               PrimFloat.eqb (total_count result) 0%float = true ->
               nth_error blocks i = Some (NoResults keyword))
           /\ (Js.truthy_opt Js.truthy_string (error result) = false ->
               PrimFloat.eqb (total_count result) 0%float = false ->
               forall l,
                 products result = Some l ->
                 nth_error blocks i
                 = Some (ProductSection keyword (total_count result)
                           (map product_card l))).
Proof.
  intros data w H.
  destruct (for_in_results_normal (keys_of data) [] H) as [blocks [E Hall]].
  exists blocks.
  split; [| split; [| split]].
  - unfold renderProductResponse, outcome, bind, lift. cbn.
    rewrite E. reflexivity.
  - unfold renderProductResponse, exec, bind, lift. cbn.
    rewrite E. reflexivity.
  - symmetry. exact (Forall2_length Hall).
  - intros i keyword result Hi.
    destruct (Forall2_nth_error Hall i Hi) as [block [Hb Hr]].
    cbn [fst snd] in Hr. rewrite Hb.
    destruct (render_keyword_priority keyword result) as [P1 [P2 P3]].
    split; [| split].
    + intros err Herr Hne. rewrite (P1 err Herr Hne) in Hr. congruence.
    + intros He Hz. rewrite (P2 He Hz) in Hr. congruence.
    + intros He Hz l Hl. rewrite (P3 He Hz l Hl) in Hr. congruence.
Qed.

Lemma renderProductResponse_keyword_priority_witness :
  exists blocks,
    outcome (renderProductResponse mixed_search) (initial "s" "") = Normal tt
    /\ product (exec (renderProductResponse mixed_search) (initial "s" ""))
       = {| active := true; innerHTML := ProductResults blocks |}
    /\ List.length blocks = List.length (keys_of mixed_search)
    /\ forall i keyword result,
         nth_error (keys_of mixed_search) i = Some (keyword, result) ->
         (forall err,
             error result = Some err -> err <> "" ->
             nth_error blocks i = Some (ErrorMessage keyword err))
         /\ (Js.truthy_opt Js.truthy_string (error result) = false ->
             PrimFloat.eqb (total_count result) 0%float = true ->
             nth_error blocks i = Some (NoResults keyword))
         /\ (Js.truthy_opt Js.truthy_string (error result) = false ->
             PrimFloat.eqb (total_count result) 0%float = false ->
             forall l,
               products result = Some l ->
               nth_error blocks i
               = Some (ProductSection keyword (total_count result)
                         (map product_card l))).
Proof.
  apply (@renderProductResponse_keyword_priority mixed_search
           (initial "s" "")).
  reflexivity.
Defined.

(** C8.  [renderProductResponse] calls [forEach] on the products of an
    entry whenever the entry's [error] is falsy and its [total_count] is
    not zero, without testing that the list is there: such an entry is
    rendered as a section of cards when it has a [products] list and
    throws a [TypeError] when it has none.  The renderer ends normally
    when every such entry has a [products] list, and throws as soon as
    one of them has none. *)
Theorem renderProductResponse_total_iff_products :
  forall (data : Data) (w : World),
    (forall keyword result,
        reaches_forEach result = true ->
        render_keyword keyword result
        = match products result with
          | Some l =>
              Normal (ProductSection keyword (total_count result)
                        (map product_card l))
          | None => Throw forEach_of_undefined
          end)
    /\ (forallb (fun e => has_products_if_needed (snd e)) (keys_of data)
        = true ->
        outcome (renderProductResponse data) w = Normal tt)
    /\ (forallb (fun e => has_products_if_needed (snd e)) (keys_of data)
        = false ->
        outcome (renderProductResponse data) w = Throw forEach_of_undefined).
Proof.
  intros data w. split; [| split].
  - intros keyword result H. unfold reaches_forEach in H.
    apply andb_true_iff in H. destruct H as [He Hz].
    apply negb_true_iff in He, Hz.
    unfold render_keyword.
    rewrite (truthy_value_None _ _ He), Hz. reflexivity.
  - intros H.
    destruct (for_in_results_normal (keys_of data) [] H) as [blocks [E _]].
    unfold renderProductResponse, outcome, bind, lift. cbn.
    rewrite E. reflexivity.
  - intros H.
    unfold renderProductResponse, outcome, bind, lift. cbn.
    rewrite (for_in_results_throw (keys_of data) [] H). reflexivity.
Qed.

Lemma renderProductResponse_total_iff_products_witness :
  outcome (renderProductResponse
             (search_of [("áo", found); ("xyz", not_found)]))
          (initial "s" "")
  = Normal tt
  /\ outcome (renderProductResponse
                (search_of [("áo", found); ("giày", without_products)]))
             (initial "s" "")
     = Throw forEach_of_undefined
  /\ render_keyword "giày" without_products = Throw forEach_of_undefined.
Proof.
  split; [| split].
  - apply (proj1 (proj2 (renderProductResponse_total_iff_products
                           (search_of [("áo", found); ("xyz", not_found)])
                           (initial "s" "")))).
    reflexivity.
  - apply (proj2 (proj2 (renderProductResponse_total_iff_products
                           (search_of [("áo", found);
                                       ("giày", without_products)])
                           (initial "s" "")))).
    reflexivity.
  - apply (proj1 (renderProductResponse_total_iff_products
                    (search_of []) (initial "s" ""))
             "giày" without_products).
    reflexivity.
Defined.

(** *** The dispatcher *)

Lemma hideAllResponseContainers_clears :
  forall w,
    outcome hideAllResponseContainers w = Normal tt
    /\ product (exec hideAllResponseContainers w)
       = {| active := false; innerHTML := Empty |}
    /\ order (exec hideAllResponseContainers w)
       = {| active := false; innerHTML := Empty |}.
Proof. intros w. repeat split. Qed.

Lemma processResponse_containers :
  forall response w,
    let w' := exec (processResponse response) w in
    match surface_of response with
    | ProductSurface =>
        active (product w') = true
        /\ order w' = {| active := false; innerHTML := Empty |}
    | OrderSurface =>
        active (order w') = true
        /\ product w' = {| active := false; innerHTML := Empty |}
    | NoSurface =>
        product w' = {| active := false; innerHTML := Empty |}
        /\ order w' = {| active := false; innerHTML := Empty |}
    end.
Proof.
  intros [msg ty [d |]] w; unfold surface_of, processResponse;
    cbn [data type message].
  - destruct (ty =? "product") eqn:Ep.
    + step_js. destruct (for_in_results (keys_of d) []); split; reflexivity.
    + destruct (ty =? "order") eqn:Eo; step_js; split; reflexivity.
  - destruct (ty =? "product"), (ty =? "order"); step_js; split; reflexivity.
Qed.

Lemma processResponse_resets_first :
  forall response w,
  exists rest,
    effects (exec (processResponse response) w)
    = (effects w
       ++ [ SetActive productContainer false;
            SetActive orderContainer false;
            SetInnerHTML productContainer Empty;
            SetInnerHTML orderContainer Empty ]
       ++ rest)%list.
Proof.
  intros [msg ty [d |]] w; unfold processResponse; cbn [data type message].
  - destruct (ty =? "product") eqn:Ep.
    + unfold renderProductResponse.
      destruct (for_in_results (keys_of d) []); run_js w; eauto.
    + destruct (ty =? "order") eqn:Eo; run_js w; eauto.
  - destruct (ty =? "product"), (ty =? "order"); run_js w; eauto.
Qed.

(** C4.  [processResponse] starts by clearing both response containers,
    and this reset ends normally in any state, also when nothing was
    rendered before, and changes nothing when repeated.  After the
    dispatch at most one container is active; a container that is not
    active is empty; and a product response with data leaves the product
    panel active and the order panel inactive and empty, whatever was
    displayed before, an order response included. *)
Theorem processResponse_one_surface :
  forall (response : Response) (w : World),
    let w' := exec (processResponse response) w in
    (exists rest,
        effects w'
        = (effects w
           ++ [ SetActive productContainer false;
                SetActive orderContainer false;
                SetInnerHTML productContainer Empty;
                SetInnerHTML orderContainer Empty ]
           ++ rest)%list)
    /\ outcome hideAllResponseContainers w = Normal tt
    /\ product (exec hideAllResponseContainers (exec hideAllResponseContainers w))
       = product (exec hideAllResponseContainers w)
    /\ order (exec hideAllResponseContainers (exec hideAllResponseContainers w))
       = order (exec hideAllResponseContainers w)
    /\ active (product w') && active (order w') = false
    /\ (active (product w') = false -> innerHTML (product w') = Empty)
    /\ (active (order w') = false -> innerHTML (order w') = Empty)
    /\ (forall previous : Response,
          type response = "product" -> data response <> None ->
          let w'' :=
            exec (processResponse response)
                 (exec (processResponse previous) w) in
          active (product w'') = true
          /\ active (order w'') = false
          /\ innerHTML (order w'') = Empty).
Proof.
  intros response w w'.
  pose proof (processResponse_containers response w) as H.
  cbv zeta in H. fold w' in H.
  split; [| split; [| split; [| split; [| split; [| split; [| split]]]]]].
  - apply processResponse_resets_first.
  - reflexivity.
  - reflexivity.
  - reflexivity.
  - destruct (surface_of response); destruct H as [H1 H2];
      rewrite ?H1, ?H2; cbn [active]; auto using andb_false_r.
  - destruct (surface_of response); destruct H as [H1 H2];
      rewrite ?H1, ?H2; cbn [active innerHTML]; congruence.
  - destruct (surface_of response); destruct H as [H1 H2];
      rewrite ?H1, ?H2; cbn [active innerHTML]; congruence.
  - intros previous Hty Hdata w''.
    pose proof (processResponse_containers response
                  (exec (processResponse previous) w)) as H'.
    cbv zeta in H'. fold w'' in H'.
    unfold surface_of in H'. rewrite Hty in H'.
    destruct (data response); [| contradiction].
    change ("product" =? "product") with true in H'. cbv iota in H'.
    destruct H' as [H1 H2]. rewrite H1, H2. repeat split.
Qed.

Lemma processResponse_one_surface_witness :
  let w'' :=
    exec (processResponse product_reply)
         (exec (processResponse order_reply) (initial "s" "")) in
  active (product w'') = true
  /\ active (order w'') = false
  /\ innerHTML (order w'') = Empty.
Proof.
  apply (proj2 (proj2 (proj2 (proj2 (proj2 (proj2 (proj2
           (processResponse_one_surface product_reply (initial "s" ""))))))))
           order_reply).
  - reflexivity.
  - discriminate.
Defined.

(** *** The conversation state machine *)

Lemma handleUserMessage_accepted :
  forall w userMessage,
    Js.trim (chatInput w) = userMessage -> userMessage <> "" ->
    isTyping w = false ->
    outcome handleUserMessage w = Normal (Some userMessage)
    /\ effects (exec handleUserMessage w)
       = (effects w ++
          [ SetInputValue ""; SetSendDisabled true;
            AppendChat (UserMessage userMessage);
            PushHistory (user_turn userMessage);
            SetIsTyping true; SetIndicator true;
            Fetch (post_of userMessage w) ])%list
    /\ conversationHistory (exec handleUserMessage w)
       = (conversationHistory w ++ [user_turn userMessage])%list
    /\ isTyping (exec handleUserMessage w) = true.
Proof.
  intros w userMessage Htrim Hne Htyping.
  unfold handleUserMessage, exec, outcome. rewrite Htrim, Htyping.
  destruct userMessage as [| c s]; [contradiction |].
  cbn [Js.truthy_string String.eqb negb orb].
  clear Htrim Htyping. run_all w. repeat split.
Qed.

Lemma handleUserMessage_settled_failure :
  forall o e w,
    sendUserMessage_settled o = Throw e ->
    handleUserMessage_settled o w
    = (Normal tt,
       exec (setTypingState false ;;
             addBotMessageToChat failure_notice false ;;
             console_error e) w).
Proof.
  intros o e w H.
  unfold handleUserMessage_settled, try_catch, bind at 1, lift.
  rewrite H. reflexivity.
Qed.

Lemma processResponse_effects :
  forall response w,
    effects (exec (processResponse response) w)
    = (effects w ++ dispatching response)%list.
Proof.
  intros [msg ty [d |]] w; unfold processResponse, dispatching, rendering;
    cbn [data type message].
  - destruct (ty =? "product") eqn:Ep.
    + unfold renderProductResponse.
      destruct (for_in_results (keys_of d) []); run_js w; reflexivity.
    + destruct (ty =? "order") eqn:Eo; run_js w; reflexivity.
  - destruct (ty =? "product"), (ty =? "order"); run_js w; reflexivity.
Qed.

Lemma processResponse_frame :
  forall response w,
    conversationHistory (exec (processResponse response) w)
    = conversationHistory w
    /\ isTyping (exec (processResponse response) w) = isTyping w
    /\ chatWindow (exec (processResponse response) w)
       = (chatWindow w ++ [BotMessage (message response) false])%list.
Proof.
  intros [msg ty [d |]] w; unfold processResponse; cbn [data type message].
  - destruct (ty =? "product") eqn:Ep.
    + unfold renderProductResponse.
      destruct (for_in_results (keys_of d) []); run_js w; repeat split.
    + destruct (ty =? "order") eqn:Eo; run_js w; repeat split.
  - destruct (ty =? "product"), (ty =? "order"); run_js w; repeat split.
Qed.

Lemma bind_normal :
  forall (A B : Type) (m : M A) (k : A -> M B) w a w',
    m w = (Normal a, w') -> bind m k w = k a w'.
Proof. intros A B m k w a w' H. unfold bind. now rewrite H. Qed.

Lemma bind_throw :
  forall (A B : Type) (m : M A) (k : A -> M B) w e w',
    m w = (Throw e, w') -> bind m k w = (Throw e, w').
Proof. intros A B m k w e w' H. unfold bind. now rewrite H. Qed.

Lemma setTypingState_run :
  forall b w, setTypingState b w = (Normal tt, exec (setTypingState b) w).
Proof. intros [|] w; reflexivity. Qed.

(** The reply arrived and the dispatch ended normally: the rest of the
    [try] block runs to its end. *)
Lemma handleUserMessage_settled_success :
  forall o response w,
    sendUserMessage_settled o = Normal response ->
    outcome (processResponse response) (exec (setTypingState false) w)
    = Normal tt ->
    handleUserMessage_settled o w
    = (Normal tt,
       exec (push (bot_turn response))
         (exec (processResponse response) (exec (setTypingState false) w))).
Proof.
  intros o response w H Hdispatch.
  unfold handleUserMessage_settled, try_catch.
  assert (Hlift : lift (sendUserMessage_settled o) w = (Normal response, w))
    by (unfold lift; now rewrite H).
  rewrite (@bind_normal _ _ _ _ _ _ _ Hlift).
  rewrite (@bind_normal _ _ _ _ _ _ _ (setTypingState_run false w)).
  unfold outcome, exec in *.
  destruct (processResponse response (snd (setTypingState false w)))
    as [c w2] eqn:E.
  cbn [fst] in Hdispatch. subst c.
  rewrite (@bind_normal _ _ _ _ _ _ _ E). reflexivity.
Qed.

(** The reply arrived and the dispatch threw: the [catch] block runs on
    the world the dispatch left. *)
Lemma handleUserMessage_settled_dispatch_throws :
  forall o response e w,
    sendUserMessage_settled o = Normal response ->
    outcome (processResponse response) (exec (setTypingState false) w)
    = Throw e ->
    handleUserMessage_settled o w
    = (Normal tt,
       exec (setTypingState false ;;
             addBotMessageToChat failure_notice false ;;
             console_error e)
         (exec (processResponse response) (exec (setTypingState false) w))).
Proof.
  intros o response e w H Hdispatch.
  unfold handleUserMessage_settled, try_catch.
  assert (Hlift : lift (sendUserMessage_settled o) w = (Normal response, w))
    by (unfold lift; now rewrite H).
  rewrite (@bind_normal _ _ _ _ _ _ _ Hlift).
  rewrite (@bind_normal _ _ _ _ _ _ _ (setTypingState_run false w)).
  unfold outcome, exec in *.
  destruct (processResponse response (snd (setTypingState false w)))
    as [c w2] eqn:E.
  cbn [fst] in Hdispatch. subst c.
  rewrite (@bind_throw _ _ _ _ _ _ _ E). reflexivity.
Qed.

(** A failed transport is what makes [sendUserMessage] throw. *)
Lemma transport_failure_throws :
  forall o e,
    transport_failure o e <-> sendUserMessage_settled o = Throw e.
Proof.
  intros o e. unfold transport_failure, sendUserMessage_settled. split.
  - intros [-> | [[r [-> [H ->]]] | [r [-> [H J]]]]].
    + reflexivity.
    + now rewrite H.
    + now rewrite H.
  - destruct o as [e' | r].
    + intros H. left. congruence.
    + destruct (ok r) eqn:H; cbn [negb]; intros J.
      * right. right. exists r. repeat split; assumption.
      * right. left. exists r. repeat split; congruence.
Qed.

Lemma skipn_length_app :
  forall (A : Type) (l t : list A), skipn (List.length l) (l ++ t)%list = t.
Proof. intros A l t. induction l as [| x l IH]; [reflexivity | exact IH]. Qed.

Lemma trace_of_effects :
  forall (A : Type) (m : M A) w t,
    effects (exec m w) = (effects w ++ t)%list -> trace m w = t.
Proof.
  intros A m w t H. unfold trace. rewrite H. apply skipn_length_app.
Qed.

Lemma setTypingState_effects :
  forall b w,
    effects (exec (setTypingState b) w)
    = (effects w ++ [SetIsTyping b; SetIndicator b])%list.
Proof. intros [|] w; run_js w; reflexivity. Qed.

Lemma catch_block_effects :
  forall e w,
    effects (exec (setTypingState false ;;
                   addBotMessageToChat failure_notice false ;;
                   console_error e) w)
    = (effects w ++
       [ SetIsTyping false; SetIndicator false;
         AppendChat (BotMessage failure_notice false);
         ConsoleError e ])%list.
Proof. intros e w. run_js w. reflexivity. Qed.

(** C2 as stated fails when a reply arrives: [isTyping] is set to false
    and the response is dispatched before the bot entry is pushed to
    [conversationHistory], so no push precedes the flag flip. *)
Lemma reply_flips_flag_before_turn_append :
  ~ append_then_flip_then_dispatch
      (trace (handleUserMessage_settled replied) awaiting).
Proof.
  intros [H _]. vm_compute in H. discriminate H.
Qed.

(** C2, amended.  The effects of each transition, in program order.
    Accepted submission: the user entry is pushed to the history, then
    [isTyping] is set to true, then the request is sent.  Reply: the
    flag is set to false first, then the response is dispatched, and the
    bot entry is pushed to the history last.  Failure: the flag is set
    to false, then the failure notice is appended to the chat; nothing
    is pushed to the history. *)
Theorem transitions_effect_order :
  forall w : World,
    (forall userMessage,
        Js.trim (chatInput w) = userMessage -> userMessage <> "" ->
        isTyping w = false ->
        trace handleUserMessage w
        = [ SetInputValue ""; SetSendDisabled true;
            AppendChat (UserMessage userMessage);
            PushHistory (user_turn userMessage);
            SetIsTyping true; SetIndicator true;
            Fetch (post_of userMessage w) ])
    /\ (forall o response,
          sendUserMessage_settled o = Normal response ->
          outcome (processResponse response) (exec (setTypingState false) w)
          = Normal tt ->
          trace (handleUserMessage_settled o) w
          = ([SetIsTyping false; SetIndicator false]
             ++ dispatching response
             ++ [PushHistory (bot_turn response)])%list)
    /\ (forall o e,
          transport_failure o e ->
          trace (handleUserMessage_settled o) w
          = [ SetIsTyping false; SetIndicator false;
              AppendChat (BotMessage failure_notice false);
              ConsoleError e ]).
Proof.
  intros w. split; [| split].
  - intros userMessage Htrim Hne Htyping.
    apply trace_of_effects.
    apply (handleUserMessage_accepted w Htrim Hne Htyping).
  - intros o response H Hdispatch.
    apply trace_of_effects. unfold exec at 1.
    rewrite (handleUserMessage_settled_success o w H Hdispatch).
    cbn [snd].
    change (effects (exec (push (bot_turn response)) ?x))
      with (effects x ++ [PushHistory (bot_turn response)])%list.
    rewrite processResponse_effects, setTypingState_effects.
    now rewrite <- !app_assoc.
  - intros o e H. apply transport_failure_throws in H.
    apply trace_of_effects. unfold exec at 1.
    rewrite (handleUserMessage_settled_failure o w H). cbn [snd].
    apply catch_block_effects.
Qed.

Lemma transitions_effect_order_witness :
  trace handleUserMessage (initial "a1b2-c3d4-e5f6-0789" "Kiểm tra đơn hàng")
  = [ SetInputValue ""; SetSendDisabled true;
      AppendChat (UserMessage "Kiểm tra đơn hàng");
      PushHistory (user_turn "Kiểm tra đơn hàng");
      SetIsTyping true; SetIndicator true;
      Fetch (post_of "Kiểm tra đơn hàng"
               (initial "a1b2-c3d4-e5f6-0789" "Kiểm tra đơn hàng")) ]
  /\ trace (handleUserMessage_settled replied) awaiting
     = ([SetIsTyping false; SetIndicator false]
        ++ dispatching order_reply
        ++ [PushHistory (bot_turn order_reply)])%list
  /\ trace (handleUserMessage_settled unreachable) awaiting
     = [ SetIsTyping false; SetIndicator false;
         AppendChat (BotMessage failure_notice false);
         ConsoleError (NetworkError "Failed to fetch") ].
Proof.
  split; [| split].
  - apply (proj1 (transitions_effect_order
                    (initial "a1b2-c3d4-e5f6-0789" "Kiểm tra đơn hàng"))).
    + reflexivity.
    + discriminate.
    + reflexivity.
  - apply (proj1 (proj2 (transitions_effect_order awaiting)) replied).
    + reflexivity.
    + reflexivity.
  - apply (proj2 (proj2 (transitions_effect_order awaiting)) unreachable).
    left. reflexivity.
Defined.

(** *** Transport failures *)

(** C3 as stated fails: after a network failure [conversationHistory]
    is what it was when the reply was awaited, so no assistant turn
    carrying the failure notice has been appended to it. *)
Lemma transport_failure_appends_no_turn :
  let w' := exec (handleUserMessage_settled unreachable) awaiting in
  conversationHistory w' = conversationHistory awaiting
  /\ ~ (exists turn,
          role turn = bot
          /\ entry_message turn = failure_notice
          /\ conversationHistory w'
             = (conversationHistory awaiting ++ [turn])%list).
Proof.
  split; [vm_compute; reflexivity |].
  intros [turn [_ [_ H]]].
  vm_compute in H. discriminate H.
Qed.

(** C3, amended.  When the transport fails (the request is rejected,
    the status is not a success, or the body cannot be decoded),
    [handleUserMessage] ends normally, so the error is not thrown to its
    caller; exactly one bot message, the fixed failure notice, is
    appended to the chat window; [isTyping] is false again;
    [conversationHistory] gains no entry; no request is sent again; and
    both response containers are left as they were, so no panel is
    rendered. *)
Theorem transport_failure_recovers :
  forall (o : FetchOutcome) (e : JsError) (w : World),
    transport_failure o e ->
    let w' := exec (handleUserMessage_settled o) w in
    outcome (handleUserMessage_settled o) w = Normal tt
    /\ chatWindow w' = (chatWindow w ++ [BotMessage failure_notice false])%list
    /\ isTyping w' = false
    /\ typingIndicator w' = false
    /\ conversationHistory w' = conversationHistory w
    /\ product w' = product w
    /\ order w' = order w
    /\ effects w'
       = (effects w ++
          [ SetIsTyping false; SetIndicator false;
            AppendChat (BotMessage failure_notice false);
            ConsoleError e ])%list.
Proof.
  intros o e w H w'. apply transport_failure_throws in H.
  subst w'. unfold exec at 1 2 3 4 5 6 7, outcome.
  rewrite (handleUserMessage_settled_failure o w H). cbn [fst snd].
  split; [reflexivity |].
  repeat (split; [run_js w; reflexivity |]).
  apply catch_block_effects.
Qed.

Lemma transport_failure_recovers_witness :
  (let w' := exec (handleUserMessage_settled unreachable) awaiting in
   outcome (handleUserMessage_settled unreachable) awaiting = Normal tt
   /\ chatWindow w'
      = [ UserMessage "Kiểm tra đơn hàng"; BotMessage failure_notice false ]
   /\ isTyping w' = false)
  /\ (let w' := exec (handleUserMessage_settled server_error) awaiting in
      chatWindow w'
      = [ UserMessage "Kiểm tra đơn hàng"; BotMessage failure_notice false ]
      /\ active (product w') = false /\ active (order w') = false)
  /\ (let w' := exec (handleUserMessage_settled undecodable) awaiting in
      chatWindow w'
      = [ UserMessage "Kiểm tra đơn hàng"; BotMessage failure_notice false ]
      /\ conversationHistory w' = [user_turn "Kiểm tra đơn hàng"]).
Proof.
  split; [| split].
  - destruct (transport_failure_recovers (o := unreachable)
                (e := NetworkError "Failed to fetch") awaiting
                (or_introl eq_refl))
      as [H1 [H2 [H3 _]]].
    split; [exact H1 | split; [exact H2 | exact H3]].
  - destruct (transport_failure_recovers (o := server_error)
                (e := HttpError 500) awaiting
                (or_intror (or_introl
                   (ex_intro _ _ (conj eq_refl (conj eq_refl eq_refl))))))
      as [_ [H2 [_ [_ [_ [H6 [H7 _]]]]]]].
    split; [exact H2 | split; [now rewrite H6 | now rewrite H7]].
  - destruct (transport_failure_recovers (o := undecodable)
                (e := SyntaxError "Unexpected token < in JSON") awaiting
                (or_intror (or_intror
                   (ex_intro _ _ (conj eq_refl (conj eq_refl eq_refl))))))
      as [_ [H2 [_ [_ [H5 _]]]]].
    split; [exact H2 | exact H5].
Defined.

(** *** The history of the conversation *)

Lemma addBotMessageToChat_frame :
  forall text includeQuickActions w,
    conversationHistory (exec (addBotMessageToChat text includeQuickActions) w)
    = conversationHistory w
    /\ chatWindow (exec (addBotMessageToChat text includeQuickActions) w)
       = (chatWindow w ++ [BotMessage text includeQuickActions])%list.
Proof. intros text q w. split; reflexivity. Qed.

Lemma handleOrderAction_frame :
  forall action orderId w,
    conversationHistory (exec (handleOrderAction action orderId) w)
    = conversationHistory w.
Proof.
  intros action orderId w. unfold handleOrderAction.
  destruct (action =? "track"); [reflexivity |].
  destruct (action =? "cancel"); reflexivity.
Qed.

Lemma checkAPIConnection_settled_frame :
  forall o w,
    conversationHistory (exec (checkAPIConnection_settled o) w)
    = conversationHistory w.
Proof.
  intros [e | r] w; unfold checkAPIConnection_settled; [reflexivity |].
  destruct (ok r); reflexivity.
Qed.

Lemma handleUserMessage_history :
  forall w,
    conversationHistory (exec handleUserMessage w) = conversationHistory w
    \/ conversationHistory (exec handleUserMessage w)
       = (conversationHistory w ++ [user_turn (Js.trim (chatInput w))])%list.
Proof.
  intros w.
  destruct (Js.trim (chatInput w)) as [| c s] eqn:Htrim.
  - left. unfold exec.
    now rewrite (handleUserMessage_early_return w (or_introl Htrim)).
  - destruct (isTyping w) eqn:Htyping.
    + left. unfold exec.
      now rewrite (handleUserMessage_early_return w (or_intror Htyping)).
    + right. rewrite <- Htrim.
      apply (handleUserMessage_accepted w eq_refl); [| exact Htyping].
      rewrite Htrim. discriminate.
Qed.

Lemma handleUserMessage_settled_history :
  forall o w,
    conversationHistory (exec (handleUserMessage_settled o) w)
    = conversationHistory w
    \/ exists response,
         sendUserMessage_settled o = Normal response
         /\ conversationHistory (exec (handleUserMessage_settled o) w)
            = (conversationHistory w ++ [bot_turn response])%list.
Proof.
  intros o w.
  destruct (sendUserMessage_settled o) as [response | e] eqn:H.
  - destruct (outcome (processResponse response)
                (exec (setTypingState false) w)) as [[] | e] eqn:D.
    + right. exists response. split; [reflexivity |].
      unfold exec at 1.
      rewrite (handleUserMessage_settled_success o w H D). cbn [snd].
      change (conversationHistory (exec (push (bot_turn response)) ?x))
        with (conversationHistory x ++ [bot_turn response])%list.
      now rewrite (proj1 (processResponse_frame response _)).
    + left. unfold exec at 1.
      rewrite (handleUserMessage_settled_dispatch_throws o w H D). cbn [snd].
      change (conversationHistory (exec (setTypingState false ;; _) ?x))
        with (conversationHistory x).
      now rewrite (proj1 (processResponse_frame response _)).
  - left. unfold exec at 1.
    now rewrite (handleUserMessage_settled_failure o w H).
Qed.

Lemma exec_drop :
  forall (A : Type) (m : M A) w, exec (drop m) w = exec m w.
Proof.
  intros A m w. unfold drop, exec, bind, ret.
  destruct (m w) as [[a | e] w']; reflexivity.
Qed.

Lemma updateSendButtonState_frame :
  forall w,
    conversationHistory (exec updateSendButtonState w) = conversationHistory w.
Proof.
  intros w. unfold updateSendButtonState, exec.
  destruct (Js.trim (chatInput w) =? ""); reflexivity.
Qed.

(** C10.  [conversationHistory] grows only by accepted submissions and
    by replies.  [addBotMessageToChat] appends to the chat window and
    leaves the history alone, and so do its callers outside the
    exchange: the offline notice, the add-to-cart confirmation and the
    order-action confirmations.  When the transport fails the history is
    left as it was.  Whatever the event delivered to the widget, the
    history is unchanged, or gains one user entry on a submission, or
    gains one bot entry on a reply that was received. *)
Theorem conversationHistory_frame :
  (forall text includeQuickActions w,
      conversationHistory
        (exec (addBotMessageToChat text includeQuickActions) w)
      = conversationHistory w
      /\ chatWindow (exec (addBotMessageToChat text includeQuickActions) w)
         = (chatWindow w ++ [BotMessage text includeQuickActions])%list)
  /\ (forall w,
        conversationHistory (exec setOfflineStatus w) = conversationHistory w)
  /\ (forall sku w,
        conversationHistory (exec (handleAddToCart sku) w)
        = conversationHistory w)
  /\ (forall action orderId w,
        conversationHistory (exec (handleOrderAction action orderId) w)
        = conversationHistory w)
  /\ (forall o e w,
        transport_failure o e ->
        conversationHistory (exec (handleUserMessage_settled o) w)
        = conversationHistory w)
  /\ (forall event w,
        let w' := exec (listener event) w in
        conversationHistory w' = conversationHistory w
        \/ (exists userMessage,
              (event = Submit \/ exists action, event = QuickAction action)
              /\ conversationHistory w'
                 = (conversationHistory w ++ [user_turn userMessage])%list)
        \/ (exists o response,
              event = ReplySettled o
              /\ sendUserMessage_settled o = Normal response
              /\ conversationHistory w'
                 = (conversationHistory w ++ [bot_turn response])%list)).
Proof.
  split; [exact addBotMessageToChat_frame |].
  split; [reflexivity |].
  split; [reflexivity |].
  split; [exact handleOrderAction_frame |].
  split.
  - intros o e w H. apply transport_failure_throws in H. unfold exec at 1.
    now rewrite (handleUserMessage_settled_failure o w H).
  - intros event w w'. subst w'.
    destruct event as [| v | | action | o | o | sku | action orderId];
      cbn [listener].
    + rewrite exec_drop.
      destruct (handleUserMessage_history w) as [H | H]; [now left |].
      right. left. eauto.
    + left.
      change (exec (_ ;; updateSendButtonState) w)
        with (exec updateSendButtonState (with_chatInput v w)).
      now rewrite updateSendButtonState_frame.
    + left.
      change (exec (_ ;; updateSendButtonState) w)
        with (exec updateSendButtonState (exec (set_value "") w)).
      now rewrite updateSendButtonState_frame.
    + change (exec (set_value action ;; drop handleUserMessage) w)
        with (exec (drop handleUserMessage) (exec (set_value action) w)).
      rewrite exec_drop.
      destruct (handleUserMessage_history (exec (set_value action) w))
        as [H | H].
      * left. exact H.
      * right. left. eexists. split; [right; eauto |]. exact H.
    + destruct (handleUserMessage_settled_history o w)
        as [H | [response [H1 H2]]]; [now left |].
      right. right. eauto.
    + left. apply checkAPIConnection_settled_frame.
    + left. reflexivity.
    + left. apply handleOrderAction_frame.
Qed.

Lemma conversationHistory_frame_witness :
  conversationHistory (exec (handleUserMessage_settled server_error) awaiting)
  = conversationHistory awaiting.
Proof.
  apply (proj1 (proj2 (proj2 (proj2 (proj2 conversationHistory_frame))))
           server_error (HttpError 500) awaiting).
  right. left. exists {| http_status := 500; json := Normal order_reply |}.
  repeat split.
Defined.

(* ================================================================== *)
(** ** Further properties *)

(** *** The world after each transition *)

Lemma exec_handleUserMessage_accepted :
  forall w userMessage,
    Js.trim (chatInput w) = userMessage -> userMessage <> "" ->
    isTyping w = false ->
    exec handleUserMessage w
    = world_of w "" true true true
        (conversationHistory w ++ [user_turn userMessage])%list
        (chatWindow w ++ [UserMessage userMessage])%list
        (product w) (order w) (online w)
        (effects w ++
         [ SetInputValue ""; SetSendDisabled true;
           AppendChat (UserMessage userMessage);
           PushHistory (user_turn userMessage);
           SetIsTyping true; SetIndicator true;
           Fetch (post_of userMessage w) ])%list.
Proof.
  intros w userMessage Htrim Hne Htyping.
  unfold handleUserMessage, exec. rewrite Htrim, Htyping.
  destruct userMessage as [| c s]; [contradiction |].
  cbn [Js.truthy_string String.eqb negb orb].
  clear Htrim Htyping. run_all w. reflexivity.
Qed.

Lemma processResponse_run :
  forall response w,
    processResponse response w
    = (dispatch_outcome response,
       world_of w (chatInput w) (sendButton_disabled w) (isTyping w)
         (typingIndicator w) (conversationHistory w)
         (chatWindow w ++ [BotMessage (message response) false])%list
         (product_after response) (order_after response) (online w)
         (effects w ++ dispatching response)%list).
Proof.
  intros [msg ty [d |]] w;
    unfold processResponse, dispatch_outcome, product_after, order_after,
      dispatching, rendering, surface_of;
    cbn [data type message].
  - destruct (ty =? "product") eqn:Ep.
    + unfold renderProductResponse.
      destruct (for_in_results (keys_of d) []); run_js w; reflexivity.
    + destruct (ty =? "order") eqn:Eo; run_js w; reflexivity.
  - destruct (ty =? "product"), (ty =? "order"); run_js w; reflexivity.
Qed.

(** The world after the [catch] block of [handleUserMessage]. *)
Lemma catch_block_run :
  forall e w,
    exec (setTypingState false ;;
          addBotMessageToChat failure_notice false ;;
          console_error e) w
    = world_of w (chatInput w) (sendButton_disabled w) false false
        (conversationHistory w)
        (chatWindow w ++ [BotMessage failure_notice false])%list
        (product w) (order w) (online w)
        (effects w ++
         [ SetIsTyping false; SetIndicator false;
           AppendChat (BotMessage failure_notice false);
           ConsoleError e ])%list.
Proof. intros e w. run_js w. reflexivity. Qed.

(** The world after the settling of the request, in each of the three
    ways the [try] block can go. *)
Lemma handleUserMessage_settled_run :
  forall o w,
    handleUserMessage_settled o w
    = (Normal tt,
       match sendUserMessage_settled o with
       | Normal response =>
           match dispatch_outcome response with
           | Normal _ =>
               world_of w (chatInput w) (sendButton_disabled w) false false
                 (conversationHistory w ++ [bot_turn response])%list
                 (chatWindow w ++ [BotMessage (message response) false])%list
                 (product_after response) (order_after response) (online w)
                 (effects w
                  ++ [SetIsTyping false; SetIndicator false]
                  ++ dispatching response
                  ++ [PushHistory (bot_turn response)])%list
           | Throw e =>
               world_of w (chatInput w) (sendButton_disabled w) false false
                 (conversationHistory w)
                 (chatWindow w
                  ++ [ BotMessage (message response) false;
                       BotMessage failure_notice false ])%list
                 (product_after response) (order_after response) (online w)
                 (effects w
                  ++ [SetIsTyping false; SetIndicator false]
                  ++ dispatching response
                  ++ [ SetIsTyping false; SetIndicator false;
                       AppendChat (BotMessage failure_notice false);
                       ConsoleError e ])%list
           end
       | Throw e =>
           world_of w (chatInput w) (sendButton_disabled w) false false
             (conversationHistory w)
             (chatWindow w ++ [BotMessage failure_notice false])%list
             (product w) (order w) (online w)
             (effects w ++
              [ SetIsTyping false; SetIndicator false;
                AppendChat (BotMessage failure_notice false);
                ConsoleError e ])%list
       end).
Proof.
  intros o w.
  destruct (sendUserMessage_settled o) as [response | e] eqn:H.
  - pose proof (processResponse_run response (exec (setTypingState false) w))
      as R.
    destruct (dispatch_outcome response) as [[] | e] eqn:D.
    + rewrite (handleUserMessage_settled_success o w H)
        by (unfold outcome; now rewrite R).
      f_equal. unfold exec at 2. rewrite R. cbn [snd].
      destruct w. unfold world_of. cbv -[List.app dispatching product_after
        order_after bot_turn]. now rewrite <- !app_assoc.
    + rewrite (@handleUserMessage_settled_dispatch_throws o response e w H)
        by (unfold outcome; now rewrite R).
      f_equal. unfold exec at 2. rewrite R. cbn [snd].
      destruct w. unfold world_of. cbv -[List.app dispatching product_after
        order_after bot_turn failure_notice]. now rewrite <- !app_assoc.
  - rewrite (handleUserMessage_settled_failure o w H). f_equal.
    apply catch_block_run.
Qed.

Lemma filter_fetch_dispatching :
  forall response, filter is_fetch (dispatching response) = [].
Proof.
  intros response. unfold dispatching, rendering. cbn [List.app filter is_fetch].
  destruct (data response) as [d |]; [| reflexivity].
  destruct (type response =? "product").
  - destruct (for_in_results (keys_of d) []); reflexivity.
  - destruct (type response =? "order"); reflexivity.
Qed.

Lemma outcome_handleUserMessage :
  forall w,
    outcome handleUserMessage w
    = if (Js.trim (chatInput w) =? "") || isTyping w
      then Normal None
      else Normal (Some (Js.trim (chatInput w))).
Proof.
  intros w.
  destruct (Js.trim (chatInput w)) as [| c s] eqn:Htrim.
  - unfold outcome.
    now rewrite (handleUserMessage_early_return w (or_introl Htrim)).
  - destruct (isTyping w) eqn:Htyping.
    + unfold outcome.
      now rewrite (handleUserMessage_early_return w (or_intror Htyping)).
    + assert (Hne : Js.trim (chatInput w) <> "")
        by (rewrite Htrim; discriminate).
      rewrite (proj1 (handleUserMessage_accepted w eq_refl Hne Htyping)).
      now rewrite Htrim.
Qed.

(** *** Submissions and replies *)

(** X1.  A submission of text that is not blank, made while no reply is
    awaited, returns the trimmed text; it empties the input and disables
    the send button, appends the trimmed text to the chat window and to
    the history as one user entry, sets [isTyping] and the typing
    indicator, leaves the response containers alone, and issues exactly
    one request: a [POST] to [API_URL] carrying the trimmed text, the
    session identifier and the user identifier. *)
Theorem submission_accepted :
  forall w : World,
    Js.trim (chatInput w) <> "" ->
    isTyping w = false ->
    let userMessage := Js.trim (chatInput w) in
    let w' := exec handleUserMessage w in
    outcome handleUserMessage w = Normal (Some userMessage)
    /\ chatInput w' = ""
    /\ sendButton_disabled w' = true
    /\ isTyping w' = true
    /\ typingIndicator w' = true
    /\ conversationHistory w'
       = (conversationHistory w ++ [user_turn userMessage])%list
    /\ chatWindow w' = (chatWindow w ++ [UserMessage userMessage])%list
    /\ product w' = product w
    /\ order w' = order w
    /\ filter is_fetch (trace handleUserMessage w)
       = [ Fetch (Post (API_URL w)
                    {| body_message := userMessage;
                       session_id := sessionId w;
                       user_id := userId w |}) ].
Proof.
  intros w Hne Htyping userMessage w'.
  pose proof (exec_handleUserMessage_accepted w eq_refl Hne Htyping) as E.
  fold userMessage in E. fold w' in E.
  split.
  { apply (handleUserMessage_accepted w eq_refl Hne Htyping). }
  assert (T : trace handleUserMessage w
              = [ SetInputValue ""; SetSendDisabled true;
                  AppendChat (UserMessage userMessage);
                  PushHistory (user_turn userMessage);
                  SetIsTyping true; SetIndicator true;
                  Fetch (post_of userMessage w) ]).
  { apply trace_of_effects. fold w'. now rewrite E. }
  rewrite T, E. repeat split.
Qed.

Lemma submission_accepted_witness :
  let w := initial "a1b2-c3d4-e5f6-0789" "  Tìm sản phẩm  " in
  outcome handleUserMessage w = Normal (Some "Tìm sản phẩm")
  /\ chatInput (exec handleUserMessage w) = ""
  /\ conversationHistory (exec handleUserMessage w)
     = [user_turn "Tìm sản phẩm"].
Proof.
  destruct (submission_accepted
              (initial "a1b2-c3d4-e5f6-0789" "  Tìm sản phẩm  "))
    as [H1 [H2 [_ [_ [_ [H6 _]]]]]].
  - discriminate.
  - reflexivity.
  - split; [exact H1 | split; [exact H2 | exact H6]].
Defined.

(** X2.  However the request settles and whatever the reply holds, the
    rest of [handleUserMessage] ends normally, [isTyping] and the typing
    indicator are off afterwards, the input and the send button are left
    as they were, and no request is sent: nothing is retried. *)
Theorem settling_returns_to_idle :
  forall (o : FetchOutcome) (w : World),
    let w' := exec (handleUserMessage_settled o) w in
    outcome (handleUserMessage_settled o) w = Normal tt
    /\ isTyping w' = false
    /\ typingIndicator w' = false
    /\ chatInput w' = chatInput w
    /\ sendButton_disabled w' = sendButton_disabled w
    /\ filter is_fetch (effects w') = filter is_fetch (effects w).
Proof.
  intros o w w'. subst w'. unfold exec, outcome.
  rewrite handleUserMessage_settled_run. cbn [fst snd].
  split; [reflexivity |].
  destruct (sendUserMessage_settled o) as [response | e].
  - destruct (dispatch_outcome response) as [[] | e];
      cbn [world_of isTyping typingIndicator chatInput sendButton_disabled
             effects];
      rewrite !filter_app, filter_fetch_dispatching; cbn [filter is_fetch];
      rewrite !app_nil_r; repeat split.
  - cbn [world_of isTyping typingIndicator chatInput sendButton_disabled
           effects].
    rewrite !filter_app; cbn [filter is_fetch]; rewrite !app_nil_r.
    repeat split.
Qed.

Lemma dispatch_outcome_normal :
  forall response,
    (forall d, type response = "product" -> data response = Some d ->
       forallb (fun e => has_products_if_needed (snd e)) (keys_of d) = true) ->
    dispatch_outcome response = Normal tt.
Proof.
  intros response H. unfold dispatch_outcome, surface_of.
  destruct (data response) as [d |]; [| reflexivity].
  destruct (String.eqb_spec (type response) "product") as [Ep | Ep].
  - destruct (for_in_results_normal (keys_of d) [] (H d Ep eq_refl))
      as [blocks [-> _]].
    reflexivity.
  - destruct (type response =? "order"); reflexivity.
Qed.

(** X3.  A reply that is received and dispatched to the end adds one
    bot message, the text of the reply, to the chat window, and one bot
    entry carrying the text, the type and the data of the reply to the
    history. *)
Theorem reply_received :
  forall (o : FetchOutcome) (response : Response) (w : World),
    sendUserMessage_settled o = Normal response ->
    (forall d, type response = "product" -> data response = Some d ->
       forallb (fun e => has_products_if_needed (snd e)) (keys_of d) = true) ->
    let w' := exec (handleUserMessage_settled o) w in
    chatWindow w' = (chatWindow w ++ [BotMessage (message response) false])%list
    /\ conversationHistory w'
       = (conversationHistory w
          ++ [ {| role := bot;
                  entry_message := message response;
                  entry_type := Some (type response);
                  entry_data := data response |} ])%list.
Proof.
  intros o response w H Hdata w'. subst w'. unfold exec.
  rewrite handleUserMessage_settled_run, H, (dispatch_outcome_normal _ Hdata).
  split; reflexivity.
Qed.

Lemma reply_received_witness :
  let w' := exec (handleUserMessage_settled replied) awaiting in
  chatWindow w'
  = (chatWindow awaiting ++ [BotMessage (message order_reply) false])%list
  /\ conversationHistory w'
     = (conversationHistory awaiting
        ++ [ {| role := bot;
                entry_message := message order_reply;
                entry_type := Some (type order_reply);
                entry_data := data order_reply |} ])%list.
Proof.
  apply (reply_received replied (response := order_reply) awaiting eq_refl).
  intros d H. discriminate H.
Defined.

(** X4.  A product reply in which an entry that reaches [forEach] has
    no [products] list makes the renderer throw inside the [try] block:
    the text of the reply is already in the chat window and the failure
    notice is appended after it, the error is logged, no bot entry is
    pushed to the history, and the product container stays active with
    an empty content. *)
Theorem reply_with_missing_products :
  forall (o : FetchOutcome) (response : Response) (d : Data) (w : World),
    sendUserMessage_settled o = Normal response ->
    type response = "product" ->
    data response = Some d ->
    forallb (fun e => has_products_if_needed (snd e)) (keys_of d) = false ->
    let w' := exec (handleUserMessage_settled o) w in
    chatWindow w'
    = (chatWindow w
       ++ [ BotMessage (message response) false;
            BotMessage failure_notice false ])%list
    /\ conversationHistory w' = conversationHistory w
    /\ product w' = {| active := true; innerHTML := Empty |}
    /\ order w' = {| active := false; innerHTML := Empty |}
    /\ isTyping w' = false
    /\ In (ConsoleError forEach_of_undefined) (effects w').
Proof.
  intros o response d w H Hty Hd Hbad w'. subst w'. unfold exec.
  rewrite handleUserMessage_settled_run, H.
  assert (D : dispatch_outcome response = Throw forEach_of_undefined).
  { unfold dispatch_outcome, surface_of. rewrite Hd, Hty.
    change ("product" =? "product") with true. cbv iota.
    now rewrite (for_in_results_throw (keys_of d) [] Hbad). }
  rewrite D. cbn [snd world_of chatWindow conversationHistory product order
                    isTyping effects].
  unfold product_after, order_after, surface_of. rewrite Hd, Hty.
  change ("product" =? "product") with true. cbv iota.
  rewrite (for_in_results_throw (keys_of d) [] Hbad).
  repeat split.
  rewrite !in_app_iff. right. right. right. cbn. auto.
Qed.

Lemma reply_with_missing_products_witness :
  let w' := exec (handleUserMessage_settled broken) awaiting in
  chatWindow w'
  = (chatWindow awaiting
     ++ [ BotMessage (message broken_reply) false;
          BotMessage failure_notice false ])%list
  /\ conversationHistory w' = conversationHistory awaiting
  /\ product w' = {| active := true; innerHTML := Empty |}
  /\ order w' = {| active := false; innerHTML := Empty |}
  /\ isTyping w' = false
  /\ In (ConsoleError forEach_of_undefined) (effects w').
Proof.
  apply (reply_with_missing_products broken (response := broken_reply)
           (d := search_of [("áo", found); ("giày", without_products)])
           awaiting);
    reflexivity.
Defined.

(** *** The dispatcher and the renderers *)

(** X5.  [processResponse] always appends the text of the response to
    the chat window, once, and then routes on the type: with no data, or
    a type other than "product" and "order", both containers are left
    cleared; an order response with data fills and activates the order
    container only; a product response with data whose entries render
    fills and activates the product container only. *)
Theorem processResponse_routes :
  forall (response : Response) (w : World),
    let w' := exec (processResponse response) w in
    chatWindow w' = (chatWindow w ++ [BotMessage (message response) false])%list
    /\ (data response = None
        \/ (type response <> "product" /\ type response <> "order") ->
        outcome (processResponse response) w = Normal tt
        /\ product w' = cleared /\ order w' = cleared)
    /\ (forall d,
          type response = "order" -> data response = Some d ->
          outcome (processResponse response) w = Normal tt
          /\ product w' = cleared
          /\ order w' = {| active := true; innerHTML := OrderInfo (orderHTML d) |})
    /\ (forall d blocks,
          type response = "product" -> data response = Some d ->
          for_in_results (keys_of d) [] = Normal blocks ->
          outcome (processResponse response) w = Normal tt
          /\ product w'
             = {| active := true; innerHTML := ProductResults blocks |}
          /\ order w' = cleared).
Proof.
  intros response w w'. subst w'. unfold exec, outcome.
  rewrite processResponse_run.
  cbn [fst snd world_of chatWindow product order].
  unfold dispatch_outcome, product_after, order_after, surface_of.
  split; [reflexivity |]. split; [| split].
  - intros [Hnone | [Hp Ho]].
    + rewrite Hnone. repeat split.
    + destruct (data response); [| repeat split].
      destruct (String.eqb_spec (type response) "product");
        [contradiction |].
      destruct (String.eqb_spec (type response) "order");
        [contradiction |].
      repeat split.
  - intros d Hty Hd. rewrite Hd, Hty.
    change ("order" =? "product") with false.
    change ("order" =? "order") with true. repeat split.
  - intros d blocks Hty Hd Hblocks. rewrite Hd, Hty.
    change ("product" =? "product") with true. cbv iota.
    rewrite Hblocks. repeat split.
Qed.

Lemma processResponse_routes_witness :
  let w' := exec (processResponse order_reply) (initial "s" "") in
  outcome (processResponse order_reply) (initial "s" "") = Normal tt
  /\ product w' = cleared
  /\ order w'
     = {| active := true; innerHTML := OrderInfo (orderHTML shipped_order) |}.
Proof.
  apply (proj1 (proj2 (proj2 (processResponse_routes order_reply
                                (initial "s" ""))))
           shipped_order);
    reflexivity.
Defined.

Lemma order_item_step_lines :
  forall data l itemsHTML sum,
    fst (fold_left (order_item_step data) l (itemsHTML, sum))
    = (itemsHTML ++ map (order_line data) l)%list.
Proof.
  intros data l.
  induction l as [| item l IH]; intros itemsHTML sum.
  - cbn. now rewrite app_nil_r.
  - cbn [fold_left map]. unfold order_item_step at 2.
    rewrite IH, <- app_assoc. reflexivity.
Qed.

(** X6.  The order panel shows one line for each item, in the order of
    the items: its name, its quantity, [price * quantity] and the
    currency of the order.  The currency is "VND" only when the property
    is absent, an empty currency is shown as it is; the date is "N/A"
    when the property is absent and also when it is the empty string. *)
Theorem orderHTML_lines :
  forall data : Data,
    view_items (orderHTML data) = map (order_line data) (items_of data)
    /\ List.length (view_items (orderHTML data))
       = List.length (items_of data)
    /\ view_currency (orderHTML data)
       = match currency data with Some c => c | None => "VND" end
    /\ view_order_date (orderHTML data)
       = match order_date data with
         | Some "" | None => "N/A"
         | Some d => d
         end.
Proof.
  intros data.
  assert (L : view_items (orderHTML data)
              = map (order_line data) (items_of data)).
  { unfold orderHTML.
    assert (F : fst (order_items data) = map (order_line data) (items_of data)).
    { unfold order_items, items_of.
      destruct (items data) as [l |]; [| reflexivity].
      destruct l as [| item l]; [reflexivity |].
      change (0 <? List.length (item :: l))%nat with true. cbv iota.
      now rewrite order_item_step_lines. }
    destruct (order_items data) as [itemsHTML sum]. exact F. }
  split; [exact L |]. split; [now rewrite L, length_map |].
  unfold orderHTML. destruct (order_items data) as [itemsHTML sum].
  cbn [view_currency view_order_date]. split; [reflexivity |].
  destruct (order_date data) as [[| c d] |]; reflexivity.
Qed.

(** X7.  When every entry that reaches [forEach] has its products, the
    product container is activated and shows one block for each keyword
    of [data.results], in the order of enumeration; for a payload with
    no [results] it shows the heading alone. *)
Theorem renderProductResponse_panel :
  forall (data : Data) (w : World),
    (forallb (fun e => has_products_if_needed (snd e)) (keys_of data) = true ->
     exists blocks,
       product (exec (renderProductResponse data) w)
       = {| active := true; innerHTML := ProductResults blocks |}
       /\ List.length blocks = List.length (keys_of data)
       /\ Forall2
            (fun e block => render_keyword (fst e) (snd e) = Normal block)
            (keys_of data) blocks)
    /\ (results data = None ->
        product (exec (renderProductResponse data) w)
        = {| active := true; innerHTML := ProductResults [] |}).
Proof.
  intros data w. split.
  - intros H.
    destruct (for_in_results_normal (keys_of data) [] H) as [blocks [E Hall]].
    exists blocks. split; [| split].
    + unfold renderProductResponse, exec, bind, lift.
      cbn. rewrite E. reflexivity.
    + symmetry. eapply Forall2_length. exact Hall.
    + exact Hall.
  - intros H. unfold renderProductResponse, keys_of. rewrite H. reflexivity.
Qed.

Lemma renderProductResponse_panel_witness :
  exists blocks,
    product (exec (renderProductResponse
                     (search_of [("áo", found); ("xyz", not_found)]))
                  (initial "s" ""))
    = {| active := true; innerHTML := ProductResults blocks |}
    /\ List.length blocks = 2
    /\ Forall2
         (fun e block => render_keyword (fst e) (snd e) = Normal block)
         [("áo", found); ("xyz", not_found)] blocks.
Proof.
  apply (proj1 (renderProductResponse_panel
                  (search_of [("áo", found); ("xyz", not_found)])
                  (initial "s" ""))).
  reflexivity.
Defined.

(** X8.  For a status that is not the name of a member of
    [Object.prototype], [translateOrderStatus] returns the label of the
    table when the status is one of its nine keys and the status itself
    when it is not. *)
Theorem translateOrderStatus_table :
  forall status : string,
    ~ In status Js.object_prototype_members ->
    (forall label,
        In (status, label) statusMap ->
        translateOrderStatus (Some status) = LabelText label)
    /\ (~ In status (map fst statusMap) ->
        translateOrderStatus (Some status) = LabelText status).
Proof.
  intros status Hproto. split.
  - intros label H. now apply translateOrderStatus_known.
  - intros H. apply translateOrderStatus_unknown; [| exact Hproto].
    revert H. generalize statusMap.
    induction l as [| [k v] l IH]; intros H; [reflexivity |].
    cbn [Js.own_property]. cbn [map fst In] in H.
    destruct (String.eqb_spec k status) as [-> | Hk].
    + exfalso. apply H. now left.
    + apply IH. intros Hin. apply H. now right.
Qed.

Lemma translateOrderStatus_table_witness :
  translateOrderStatus (Some "shipped") = LabelText "Đang giao hàng"
  /\ translateOrderStatus (Some "delivered") = LabelText "delivered".
Proof.
  split.
  - assert (H : ~ In "shipped" Js.object_prototype_members)
      by (cbn; intuition discriminate).
    apply (proj1 (translateOrderStatus_table H)).
    cbn. intuition.
  - assert (H : ~ In "delivered" Js.object_prototype_members)
      by (cbn; intuition discriminate).
    apply (proj2 (translateOrderStatus_table H)).
    cbn. intuition discriminate.
Defined.

(** *** Connectivity and the local actions *)

(** X9.  When the probe settles, the status indicator is online exactly
    when the probe was answered with a success status.  Otherwise it is
    offline and one offline notice is appended to the chat window.  In
    both cases the history, [isTyping] and the input are left alone, so
    a submission is accepted or rejected as it would have been. *)
Theorem probe_is_advisory :
  forall (o : FetchOutcome) (w : World),
    let w' := exec (checkAPIConnection_settled o) w in
    online w' = Some (connected o)
    /\ chatWindow w'
       = (chatWindow w
          ++ if connected o then [] else [BotMessage offline_notice false])%list
    /\ conversationHistory w' = conversationHistory w
    /\ isTyping w' = isTyping w
    /\ chatInput w' = chatInput w
    /\ outcome handleUserMessage w' = outcome handleUserMessage w.
Proof.
  intros o w w'.
  assert (H : online w' = Some (connected o)
              /\ chatWindow w'
                 = (chatWindow w
                    ++ if connected o then []
                       else [BotMessage offline_notice false])%list
              /\ conversationHistory w' = conversationHistory w
              /\ isTyping w' = isTyping w
              /\ chatInput w' = chatInput w).
  { subst w'. destruct o as [e | r]; unfold checkAPIConnection_settled, connected.
    - repeat split.
    - destruct (ok r); repeat split. cbn. now rewrite app_nil_r. }
  destruct H as [H1 [H2 [H3 [H4 H5]]]].
  repeat (split; [assumption |]).
  now rewrite !outcome_handleUserMessage, H4, H5.
Qed.

(** X10.  A click on a quick action while no reply is awaited submits
    the trimmed text of the action.  While a reply is awaited, or for a
    blank action, the text is written to the input and nothing else
    happens: no entry, no request, and the send button keeps its
    state. *)
Theorem quick_action :
  forall (action : string) (w : World),
    let w' := exec (listener (QuickAction action)) w in
    (Js.trim action <> "" -> isTyping w = false ->
     chatInput w' = ""
     /\ isTyping w' = true
     /\ conversationHistory w'
        = (conversationHistory w ++ [user_turn (Js.trim action)])%list
     /\ filter is_fetch (effects w')
        = (filter is_fetch (effects w)
           ++ [Fetch (post_of (Js.trim action) w)])%list)
    /\ (Js.trim action = "" \/ isTyping w = true ->
        chatInput w' = action
        /\ sendButton_disabled w' = sendButton_disabled w
        /\ isTyping w' = isTyping w
        /\ conversationHistory w' = conversationHistory w
        /\ chatWindow w' = chatWindow w
        /\ effects w' = (effects w ++ [SetInputValue action])%list).
Proof.
  intros action w w'.
  assert (E : w' = exec handleUserMessage (exec (set_value action) w)).
  { subst w'. cbn [listener].
    change (exec (set_value action ;; drop handleUserMessage) w)
      with (exec (drop handleUserMessage) (exec (set_value action) w)).
    apply exec_drop. }
  rewrite E. clear E w'. split.
  - intros Hne Htyping.
    rewrite (exec_handleUserMessage_accepted
               (exec (set_value action) w) eq_refl Hne Htyping).
    cbn [world_of chatInput isTyping conversationHistory effects].
    repeat split.
    change (effects (exec (set_value action) w))
      with (effects w ++ [SetInputValue action])%list.
    rewrite !filter_app. cbn [filter is_fetch List.app].
    now rewrite app_nil_r.
  - intros H.
    assert (R : exec handleUserMessage (exec (set_value action) w)
                = exec (set_value action) w).
    { unfold exec at 1.
      now rewrite (handleUserMessage_early_return
                     (exec (set_value action) w) H). }
    rewrite R. repeat split.
Qed.

Lemma quick_action_witness :
  (let w' := exec (listener (QuickAction "Hỗ trợ")) (initial "s" "") in
   chatInput w' = ""
   /\ isTyping w' = true
   /\ conversationHistory w' = [user_turn "Hỗ trợ"]
   /\ filter is_fetch (effects w')
      = [Fetch (post_of "Hỗ trợ" (initial "s" ""))])
  /\ (let w' := exec (listener (QuickAction "Hỗ trợ")) awaiting in
      chatInput w' = "Hỗ trợ"
      /\ sendButton_disabled w' = sendButton_disabled awaiting
      /\ isTyping w' = isTyping awaiting
      /\ conversationHistory w' = conversationHistory awaiting
      /\ chatWindow w' = chatWindow awaiting
      /\ effects w' = (effects awaiting ++ [SetInputValue "Hỗ trợ"])%list).
Proof.
  split.
  - apply (proj1 (quick_action "Hỗ trợ" (initial "s" ""))).
    + discriminate.
    + reflexivity.
  - apply (proj2 (quick_action "Hỗ trợ" awaiting)).
    right. reflexivity.
Defined.

(** X11.  The add-to-cart and order actions are local: each appends
    one confirmation naming the SKU or the order to the chat window
    ("track" and "cancel" with different texts), an order action of
    another kind does nothing at all, and none of them sends a request
    or touches the history, [isTyping] or the response containers. *)
Theorem actions_are_local :
  (forall sku w,
      let w' := exec (handleAddToCart sku) w in
      chatWindow w'
      = (chatWindow w
         ++ [ BotMessage
                ("Đã thêm sản phẩm có mã <strong>" ++ sku ++
                 "</strong> vào giỏ hàng của bạn!") false ])%list
      /\ filter is_fetch (effects w') = filter is_fetch (effects w)
      /\ conversationHistory w' = conversationHistory w
      /\ isTyping w' = isTyping w
      /\ product w' = product w /\ order w' = order w)
  /\ (forall action orderId w,
        let w' := exec (handleOrderAction action orderId) w in
        (action <> "track" -> action <> "cancel" -> w' = w)
        /\ (action = "track" \/ action = "cancel" ->
            exists text,
              chatWindow w' = (chatWindow w ++ [BotMessage text false])%list
              /\ effects w'
                 = (effects w ++ [AppendChat (BotMessage text false)])%list)
        /\ filter is_fetch (effects w') = filter is_fetch (effects w)
        /\ conversationHistory w' = conversationHistory w
        /\ isTyping w' = isTyping w
        /\ product w' = product w /\ order w' = order w
        /\ (action = "track" ->
            chatWindow w'
            = (chatWindow w
               ++ [ BotMessage
                      ("Đơn hàng #" ++ orderId ++
                       " đang trong quá trình vận chuyển. Dự kiến giao hàng trong 3-5 ngày làm việc.")
                      false ])%list)
        /\ (action = "cancel" ->
            chatWindow w'
            = (chatWindow w
               ++ [ BotMessage
                      ("Yêu cầu hủy đơn hàng #" ++ orderId ++
                       " đã được ghi nhận. Bộ phận CSKH sẽ liên hệ với bạn trong thời gian sớm nhất.")
                      false ])%list)).
Proof.
  split.
  - intros sku w w'. subst w'. repeat split.
    change (effects (exec (handleAddToCart sku) w))
      with ((effects w ++ [ConsoleLog ("Adding product with SKU " ++ sku ++ " to cart")])
            ++ [AppendChat
                  (BotMessage
                     ("Đã thêm sản phẩm có mã <strong>" ++ sku ++
                      "</strong> vào giỏ hàng của bạn!") false)])%list.
    rewrite !filter_app. cbn [filter is_fetch]. now rewrite !app_nil_r.
  - intros action orderId w w'. subst w'. unfold handleOrderAction.
    assert (F : forall text,
               filter is_fetch
                 (effects (exec (addBotMessageToChat text false) w))
               = filter is_fetch (effects w)).
    { intros text.
      unfold exec, addBotMessageToChat, appendChild, perform.
      cbn [snd record effects with_chatWindow].
      rewrite filter_app. cbn [filter is_fetch]. now rewrite app_nil_r. }
    destruct (String.eqb_spec action "track") as [Ht | Ht];
      [| destruct (String.eqb_spec action "cancel") as [Hc | Hc]].
    + split; [intros; contradiction |].
      split; [intros _; eexists; split; reflexivity |].
      split; [apply F |].
      do 4 (split; [reflexivity |]).
      split; [intros _; reflexivity | intros Hc; congruence].
    + split; [intros; contradiction |].
      split; [intros _; eexists; split; reflexivity |].
      split; [apply F |].
      do 4 (split; [reflexivity |]).
      split; [intros Ht'; contradiction | intros _; reflexivity].
    + split; [reflexivity |].
      split; [intros [H | H]; contradiction |].
      do 5 (split; [reflexivity |]).
      split; intros; contradiction.
Qed.

Lemma actions_are_local_witness :
  exec (handleOrderAction "refund" "000000123") awaiting = awaiting
  /\ exists text,
       chatWindow (exec (handleOrderAction "track" "000000123") awaiting)
       = (chatWindow awaiting ++ [BotMessage text false])%list
       /\ effects (exec (handleOrderAction "track" "000000123") awaiting)
          = (effects awaiting ++ [AppendChat (BotMessage text false)])%list.
Proof.
  split.
  - apply (proj1 (proj2 actions_are_local "refund" "000000123" awaiting));
      discriminate.
  - apply (proj1 (proj2 (proj2 actions_are_local "track" "000000123"
                           awaiting))).
    left. reflexivity.
Defined.

(** X12.  After the visitor has edited the input while no reply is
    awaited, the send button is enabled exactly when a submission would
    be accepted; and after a click on clear-input the input is empty,
    the button is disabled and a submission is rejected. *)
Theorem send_button_follows_guard :
  forall (v : string) (w : World),
    (isTyping w = false ->
     let w' := exec (listener (Input v)) w in
     chatInput w' = v
     /\ sendButton_disabled w' = (Js.trim v =? "")
     /\ outcome handleUserMessage w'
        = if sendButton_disabled w' then Normal None
          else Normal (Some (Js.trim v)))
    /\ (let w' := exec (listener ClearInput) w in
        chatInput w' = ""
        /\ sendButton_disabled w' = true
        /\ outcome handleUserMessage w' = Normal None).
Proof.
  intros v w. split.
  - intros Htyping w'.
    assert (H : chatInput w' = v
                /\ sendButton_disabled w' = (Js.trim v =? "")
                /\ isTyping w' = isTyping w).
    { subst w'. cbn [listener].
      change (exec (_ ;; updateSendButtonState) w)
        with (exec updateSendButtonState (with_chatInput v w)).
      unfold updateSendButtonState, exec.
      cbn [chatInput with_chatInput].
      destruct (Js.trim v =? ""); repeat split. }
    destruct H as [H1 [H2 H3]].
    split; [exact H1 |]. split; [exact H2 |].
    rewrite outcome_handleUserMessage, H1, H2, H3, Htyping.
    now rewrite orb_false_r.
  - intros w'.
    assert (H : chatInput w' = "" /\ sendButton_disabled w' = true).
    { subst w'. split; reflexivity. }
    destruct H as [H1 H2]. split; [exact H1 |]. split; [exact H2 |].
    rewrite outcome_handleUserMessage, H1. reflexivity.
Qed.

Lemma send_button_follows_guard_witness :
  let w' := exec (listener (Input "  ")) (initial "s" "") in
  chatInput w' = "  "
  /\ sendButton_disabled w' = true
  /\ outcome handleUserMessage w' = Normal None.
Proof.
  apply (proj1 (send_button_follows_guard "  " (initial "s" ""))).
  reflexivity.
Defined.

(** *** Invariants of the widget *)

Lemma world_of_same :
  forall w,
    world_of w (chatInput w) (sendButton_disabled w) (isTyping w)
      (typingIndicator w) (conversationHistory w) (chatWindow w ++ [])%list
      (product w) (order w) (online w) (effects w ++ [])%list
    = w.
Proof. intros w. destruct w. unfold world_of. cbn. now rewrite !app_nil_r. Qed.

Lemma local_silent :
  forall w input disabled on log,
    filter is_fetch log = [] ->
    transition w
      (world_of w input disabled (isTyping w) (typingIndicator w)
         (conversationHistory w) (chatWindow w) (product w) (order w) on
         (effects w ++ log)%list).
Proof.
  intros w input disabled on log H.
  rewrite <- (app_nil_r (chatWindow w)). now apply local_change.
Qed.

Lemma submission_transition :
  forall w input log,
    filter is_fetch log = [] ->
    transition w
      (exec handleUserMessage
         (world_of w input (sendButton_disabled w) (isTyping w)
            (typingIndicator w) (conversationHistory w) (chatWindow w)
            (product w) (order w) (online w) (effects w ++ log)%list)).
Proof.
  intros w input log Hlog.
  assert (Hidle : forall w0,
             (Js.trim (chatInput w0) = "" \/ isTyping w0 = true) ->
             exec handleUserMessage w0 = w0).
  { intros w0 H. unfold exec.
    now rewrite (handleUserMessage_early_return w0 H). }
  assert (Hsame :
            transition w
              (world_of w input (sendButton_disabled w) (isTyping w)
                 (typingIndicator w) (conversationHistory w) (chatWindow w)
                 (product w) (order w) (online w) (effects w ++ log)%list)).
  { now apply local_silent. }
  assert (Hcases : isTyping w = true \/ isTyping w = false)
    by (destruct (isTyping w); auto).
  destruct (Js.trim input) as [| c s] eqn:Htrim.
  - rewrite Hidle; [exact Hsame | left; exact Htrim].
  - destruct Hcases as [Htyping | Htyping].
    + rewrite Hidle; [exact Hsame | right; exact Htyping].
    + assert (Hne : Js.trim input <> "") by (rewrite Htrim; discriminate).
      rewrite (exec_handleUserMessage_accepted
                 (world_of w input (sendButton_disabled w) (isTyping w)
                    (typingIndicator w) (conversationHistory w) (chatWindow w)
                    (product w) (order w) (online w) (effects w ++ log)%list)
                 eq_refl Hne Htyping).
      change (transition w
                (world_of w "" true true true
                   (conversationHistory w ++ [user_turn (Js.trim input)])%list
                   (chatWindow w ++ [UserMessage (Js.trim input)])%list
                   (product w) (order w) (online w)
                   ((effects w ++ log) ++
                    [ SetInputValue ""; SetSendDisabled true;
                      AppendChat (UserMessage (Js.trim input));
                      PushHistory (user_turn (Js.trim input));
                      SetIsTyping true; SetIndicator true;
                      Fetch (post_of (Js.trim input) w) ])%list)).
      rewrite <- app_assoc.
      exact (submitted w (Js.trim input) log Htyping Hlog).
Qed.

(** Every listener makes one of the three transitions. *)
Lemma listener_transition :
  forall e w, transition w (exec (listener e) w).
Proof.
  intros e w.
  destruct e as [| v | | action | o | o | sku | action orderId];
    cbn [listener].
  - rewrite exec_drop.
    pose proof (submission_transition w (chatInput w) [] eq_refl) as H.
    rewrite app_nil_r in H.
    replace (world_of w (chatInput w) (sendButton_disabled w) (isTyping w)
               (typingIndicator w) (conversationHistory w) (chatWindow w)
               (product w) (order w) (online w) (effects w))
      with w in H by (now destruct w).
    exact H.
  - change (exec (_ ;; updateSendButtonState) w)
      with (exec updateSendButtonState (with_chatInput v w)).
    unfold updateSendButtonState, exec. cbn [chatInput with_chatInput].
    destruct (Js.trim v =? "").
    + exact (local_silent w v true (online w) [SetSendDisabled true] eq_refl).
    + exact (local_silent w v false (online w) [SetSendDisabled false]
               eq_refl).
  - as_world (world_of w "" true (isTyping w) (typingIndicator w)
                (conversationHistory w) (chatWindow w) (product w) (order w)
                (online w)
                (effects w ++ [SetInputValue ""; SetSendDisabled true])%list).
    now apply local_silent.
  - change (exec (set_value action ;; drop handleUserMessage) w)
      with (exec (drop handleUserMessage) (exec (set_value action) w)).
    rewrite exec_drop.
    exact (submission_transition w action [SetInputValue action] eq_refl).
  - apply settled.
  - unfold checkAPIConnection_settled.
    assert (Hoffline : transition w (exec setOfflineStatus w)).
    { as_world (world_of w (chatInput w) (sendButton_disabled w) (isTyping w)
                  (typingIndicator w) (conversationHistory w)
                  (chatWindow w ++ [BotMessage offline_notice false])%list
                  (product w) (order w) (Some false)
                  (effects w ++
                   [ SetOnline false;
                     AppendChat (BotMessage offline_notice false) ])%list).
      now apply local_change. }
    destruct o as [err | r]; [exact Hoffline |].
    destruct (ok r); [| exact Hoffline].
    exact (local_silent w (chatInput w) (sendButton_disabled w) (Some true)
             [SetOnline true] eq_refl).
  - as_world (world_of w (chatInput w) (sendButton_disabled w) (isTyping w)
                (typingIndicator w) (conversationHistory w)
                (chatWindow w
                 ++ [ BotMessage
                        ("Đã thêm sản phẩm có mã <strong>" ++ sku ++
                         "</strong> vào giỏ hàng của bạn!") false ])%list
                (product w) (order w) (online w)
                (effects w ++
                 [ ConsoleLog ("Adding product with SKU " ++ sku ++ " to cart");
                   AppendChat
                     (BotMessage
                        ("Đã thêm sản phẩm có mã <strong>" ++ sku ++
                         "</strong> vào giỏ hàng của bạn!") false) ])%list).
    now apply local_change.
  - unfold handleOrderAction.
    destruct (action =? "track"); [| destruct (action =? "cancel")].
    + exact (local_change w (chatInput w) (sendButton_disabled w) (online w)
               [BotMessage _ false] [AppendChat _] eq_refl eq_refl).
    + exact (local_change w (chatInput w) (sendButton_disabled w) (online w)
               [BotMessage _ false] [AppendChat _] eq_refl eq_refl).
    + unfold exec, ret. cbn [snd].
      rewrite <- (world_of_same w) at 2.
      exact (local_change w (chatInput w) (sendButton_disabled w) (online w)
               [] [] eq_refl eq_refl).
Qed.

(** A property kept by the three transitions is kept by every sequence
    of events. *)
Lemma run_invariant :
  forall P : World -> Prop,
    (forall w w', transition w w' -> P w -> P w') ->
    forall events w, P w -> P (run events w).
Proof.
  intros P Hstep events.
  induction events as [| e events IH]; intros w H; [exact H |].
  cbn [run fold_left]. apply IH.
  apply (Hstep w); [apply listener_transition | exact H].
Qed.

Lemma panels_after_one_surface :
  forall response,
    active (product_after response) && active (order_after response) = false
    /\ (active (product_after response) = false ->
        innerHTML (product_after response) = Empty)
    /\ (active (order_after response) = false ->
        innerHTML (order_after response) = Empty).
Proof.
  intros response. unfold product_after, order_after.
  destruct (surface_of response), (data response);
    cbn; repeat split; congruence.
Qed.

Lemma typing_indicator_kept :
  forall w w',
    transition w w' -> indicator_shows_typing w -> indicator_shows_typing w'.
Proof.
  intros w w' T H. unfold indicator_shows_typing in *. destruct T as [? ? ? ? ? _ _ | ? ? _ _ | o].
  - exact H.
  - reflexivity.
  - unfold exec. rewrite handleUserMessage_settled_run. cbn [snd].
    destruct (sendUserMessage_settled o) as [response | e];
      [destruct (dispatch_outcome response) |]; reflexivity.
Qed.

(** X13.  The typing indicator shows [isTyping]: if the two agree, they
    agree after every sequence of events. *)
Theorem typing_indicator_in_step :
  forall (events : list Event) (w : World),
    typingIndicator w = isTyping w ->
    typingIndicator (run events w) = isTyping (run events w).
Proof.
  intros events. apply (run_invariant indicator_shows_typing).
  exact typing_indicator_kept.
Qed.

Lemma typing_indicator_in_step_witness :
  typingIndicator
    (run [Input "Kiểm tra đơn hàng"; Submit; Submit; ReplySettled replied]
         (initial "s" ""))
  = isTyping
      (run [Input "Kiểm tra đơn hàng"; Submit; Submit; ReplySettled replied]
           (initial "s" "")).
Proof.
  apply (typing_indicator_in_step
           [Input "Kiểm tra đơn hàng"; Submit; Submit; ReplySettled replied]
           (initial "s" "")).
  reflexivity.
Defined.

Lemma one_surface_kept :
  forall w w',
    transition w w' -> one_surface w -> one_surface w'.
Proof.
  intros w w' T H. destruct T as [? ? ? ? ? _ _ | ? ? _ _ | o].
  - exact H.
  - exact H.
  - unfold exec. rewrite handleUserMessage_settled_run. cbn [snd].
    destruct (sendUserMessage_settled o) as [response | e];
      [destruct (dispatch_outcome response) |];
      unfold one_surface; cbn [world_of product order];
      try apply panels_after_one_surface.
    exact H.
Qed.

(** X14.  Over the whole life of the widget at most one response
    container is active, and a container that is not active is empty:
    the property is kept by every sequence of events. *)
Theorem one_surface_invariant :
  forall (events : list Event) (w : World),
    one_surface w -> one_surface (run events w).
Proof.
  intros events. apply (run_invariant one_surface).
  exact one_surface_kept.
Qed.

Lemma one_surface_invariant_witness :
  one_surface
    (run [ Input "Kiểm tra đơn hàng"; Submit; ReplySettled replied;
           Input "Tìm áo"; Submit; ReplySettled broken ]
         (initial "s" "")).
Proof.
  apply (@one_surface_invariant
           [ Input "Kiểm tra đơn hàng"; Submit; ReplySettled replied;
             Input "Tìm áo"; Submit; ReplySettled broken ]
           (initial "s" "")).
  repeat split.
Defined.

Lemma transition_extends :
  forall w w',
    transition w w' ->
    (exists h c l,
        conversationHistory w' = (conversationHistory w ++ h)%list
        /\ chatWindow w' = (chatWindow w ++ c)%list
        /\ effects w' = (effects w ++ l)%list)
    /\ API_URL w' = API_URL w
    /\ sessionId w' = sessionId w
    /\ userId w' = userId w.
Proof.
  intros w w' T. destruct T as [? ? ? notices log _ _ | m log _ _ | o].
  - split; [| repeat split]. exists [], notices, log.
    cbn [world_of conversationHistory chatWindow effects].
    now rewrite app_nil_r.
  - split; [| repeat split]. eexists _, _, _.
    cbn [world_of conversationHistory chatWindow effects]. repeat split.
  - unfold exec. rewrite handleUserMessage_settled_run. cbn [snd].
    destruct (sendUserMessage_settled o) as [response | e];
      [destruct (dispatch_outcome response) |];
      (split; [| repeat split]);
      cbn [world_of conversationHistory chatWindow effects].
    + eexists _, _, _. repeat split.
    + exists [].  eexists _, _. rewrite app_nil_r. repeat split.
    + exists [].  eexists _, _. rewrite app_nil_r. repeat split.
Qed.

(** X15.  The history, the chat window and the log of effects are
    append-only, and the endpoint, the session identifier and the user
    identifier never change: after any sequence of events each of the
    three lists is what it was, followed by what was added. *)
Theorem widget_state_is_append_only :
  forall (events : list Event) (w : World),
    (exists h c l,
        conversationHistory (run events w) = (conversationHistory w ++ h)%list
        /\ chatWindow (run events w) = (chatWindow w ++ c)%list
        /\ effects (run events w) = (effects w ++ l)%list)
    /\ API_URL (run events w) = API_URL w
    /\ sessionId (run events w) = sessionId w
    /\ userId (run events w) = userId w.
Proof.
  induction events as [| e events IH]; intros w.
  - split; [| repeat split]. exists [], [], []. cbn. now rewrite !app_nil_r.
  - cbn [run fold_left].
    destruct (IH (exec (listener e) w))
      as [[h [c [l [H1 [H2 H3]]]]] [H4 [H5 H6]]].
    destruct (transition_extends (listener_transition e w))
      as [[h0 [c0 [l0 [G1 [G2 G3]]]]] [G4 [G5 G6]]].
    fold (run events (exec (listener e) w)).
    split; [| repeat split; congruence].
    exists (h0 ++ h)%list, (c0 ++ c)%list, (l0 ++ l)%list.
    rewrite H1, H2, H3, G1, G2, G3, !app_assoc. repeat split.
Qed.

Lemma no_fetch_no_post :
  forall log, filter is_fetch log = [] -> filter is_post log = [].
Proof.
  induction log as [| e log IH]; intros H; [reflexivity |].
  cbn [filter] in *. destruct e as [| | | | | | r | | | | |];
    cbn [is_fetch is_post] in *; try (apply IH; exact H).
  discriminate H.
Qed.

Lemma no_post_dispatching :
  forall response, filter is_post (dispatching response) = [].
Proof.
  intros response. apply no_fetch_no_post, filter_fetch_dispatching.
Qed.

Lemma one_post_per_submission_kept :
  forall w w',
    transition w w' -> one_post_per_submission w -> one_post_per_submission w'.
Proof.
  intros w w' T [H1 H2].
  destruct T as [? ? ? notices log Hn Hl | m log _ Hl | o];
    unfold one_post_per_submission.
  - cbn [world_of conversationHistory chatWindow effects].
    rewrite !filter_app, Hn, (no_fetch_no_post _ Hl), !app_nil_r. now split.
  - cbn [world_of conversationHistory chatWindow effects].
    rewrite !filter_app, (no_fetch_no_post _ Hl).
    cbn [filter is_post is_user_entry is_user_message user_turn role
           post_of List.app].
    rewrite !length_app. cbn [List.length]. lia.
  - unfold exec. rewrite handleUserMessage_settled_run. cbn [snd].
    destruct (sendUserMessage_settled o) as [response | e];
      [destruct (dispatch_outcome response) |];
      cbn [world_of conversationHistory chatWindow effects];
      rewrite !filter_app, ?no_post_dispatching;
      cbn [filter is_post is_user_entry is_user_message bot_turn role
             List.app];
      rewrite !app_nil_r; now split.
Qed.

(** X16.  Every submission recorded in the history was shown in the
    chat window and sent exactly once: the number of [POST] requests,
    of user entries in the history and of user messages in the chat
    window stay equal over every sequence of events. *)
Theorem one_post_per_submission_invariant :
  forall (events : list Event) (w : World),
    one_post_per_submission w -> one_post_per_submission (run events w).
Proof.
  intros events. apply (run_invariant one_post_per_submission).
  exact one_post_per_submission_kept.
Qed.

Lemma one_post_per_submission_invariant_witness :
  one_post_per_submission
    (run [ Input "Kiểm tra đơn hàng"; Submit; Submit;
           QuickAction "Hỗ trợ"; ReplySettled unreachable;
           Submit; ReplySettled replied ]
         (initial "s" "")).
Proof.
  apply (@one_post_per_submission_invariant
           [ Input "Kiểm tra đơn hàng"; Submit; Submit;
             QuickAction "Hỗ trợ"; ReplySettled unreachable;
             Submit; ReplySettled replied ]
           (initial "s" "")).
  split; reflexivity.
Defined.

Lemma no_fetch_request_of :
  forall w log, filter is_fetch log = [] -> forallb (request_of w) log = true.
Proof.
  intros w. induction log as [| e log IH]; intros H; [reflexivity |].
  cbn [filter forallb] in *. destruct e as [| | | | | | r | | | | |];
    cbn [is_fetch request_of] in *; try (apply IH; exact H).
  discriminate H.
Qed.

Lemma requests_kept :
  forall w w',
    transition w w' -> requests_carry_identity w -> requests_carry_identity w'.
Proof.
  intros w w' T H. unfold requests_carry_identity in *.
  destruct T as [? ? ? notices log _ Hl | m log _ Hl | o].
  - cbn [world_of effects].
    rewrite forallb_app. apply andb_true_iff. split.
    + exact H.
    + exact (no_fetch_request_of w log Hl).
  - cbn [world_of effects].
    rewrite !forallb_app. apply andb_true_iff. split; [exact H |].
    apply andb_true_iff. split; [exact (no_fetch_request_of w log Hl) |].
    cbn [forallb request_of post_of session_id user_id world_of API_URL
           sessionId userId].
    rewrite !String.eqb_refl.
    destruct (userId w); [now rewrite String.eqb_refl | reflexivity].
  - unfold exec. rewrite handleUserMessage_settled_run. cbn [snd].
    assert (D : forall response,
               forallb (request_of w) (dispatching response) = true)
      by (intros; apply no_fetch_request_of, filter_fetch_dispatching).
    destruct (sendUserMessage_settled o) as [response | e];
      [destruct (dispatch_outcome response) |];
      cbn [world_of effects];
      rewrite !forallb_app;
      change (forallb (request_of (world_of w _ _ _ _ _ _ _ _ _ _)))
        with (forallb (request_of w));
      rewrite H, ?D; reflexivity.
Qed.

(** X17.  Every request of the widget goes to [API_URL], and every
    [POST] carries the session identifier and the user identifier of the
    widget: if this holds of the requests sent so far, it holds after
    every sequence of events. *)
Theorem requests_carry_session :
  forall (events : list Event) (w : World),
    forallb (request_of w) (effects w) = true ->
    forallb (request_of (run events w)) (effects (run events w)) = true.
Proof.
  intros events. apply (run_invariant requests_carry_identity).
  exact requests_kept.
Qed.

Lemma requests_carry_session_witness :
  forallb
    (request_of
       (run [QuickAction "Hỗ trợ"; ReplySettled server_error]
            (exec DOMContentLoaded (initial "s" ""))))
    (effects
       (run [QuickAction "Hỗ trợ"; ReplySettled server_error]
            (exec DOMContentLoaded (initial "s" ""))))
  = true.
Proof.
  apply (@requests_carry_session
           [QuickAction "Hỗ trợ"; ReplySettled server_error]
           (exec DOMContentLoaded (initial "s" ""))).
  reflexivity.
Defined.

Lemma sublist_refl :
  forall (A : Type) (l : list A), sublist l l.
Proof. induction l; constructor; assumption. Qed.

Lemma sublist_app_r :
  forall (A : Type) (l l' extra : list A),
    sublist l l' -> sublist l (l' ++ extra)%list.
Proof.
  intros A l l' extra H. induction H.
  - induction extra; constructor; assumption.
  - cbn. now constructor.
  - cbn. now constructor.
Qed.

Lemma sublist_app :
  forall (A : Type) (l l' m m' : list A),
    sublist l l' -> sublist m m' -> sublist (l ++ m)%list (l' ++ m')%list.
Proof.
  intros A l l' m m' H Hm. induction H; cbn.
  - exact Hm.
  - now constructor.
  - now constructor.
Qed.

Lemma history_in_chat_kept :
  forall w w',
    transition w w' -> history_in_chat w -> history_in_chat w'.
Proof.
  intros w w' T H. unfold history_in_chat in *.
  destruct T as [? ? ? notices log _ _ | m log _ _ | o].
  - cbn [world_of conversationHistory chatWindow].
    now apply sublist_app_r.
  - cbn [world_of conversationHistory chatWindow].
    rewrite map_app. apply sublist_app; [exact H | apply sublist_refl].
  - unfold exec. rewrite handleUserMessage_settled_run. cbn [snd].
    destruct (sendUserMessage_settled o) as [response | e];
      [destruct (dispatch_outcome response) |];
      cbn [world_of conversationHistory chatWindow].
    + rewrite map_app. apply sublist_app; [exact H | apply sublist_refl].
    + now apply sublist_app_r.
    + now apply sublist_app_r.
Qed.

(** X18.  Every entry of the history was shown in the chat window, in
    the same order: the messages of the history are the chat window with
    the local notices and confirmations left out, a property kept by
    every sequence of events. *)
Theorem history_shown_in_chat :
  forall (events : list Event) (w : World),
    sublist (map chat_of (conversationHistory w)) (chatWindow w) ->
    sublist (map chat_of (conversationHistory (run events w)))
            (chatWindow (run events w)).
Proof.
  intros events. apply (run_invariant history_in_chat).
  exact history_in_chat_kept.
Qed.

Lemma history_shown_in_chat_witness :
  sublist
    (map chat_of
       (conversationHistory
          (run [ Input "Kiểm tra đơn hàng"; Submit; AddToCart "A1";
                 ReplySettled replied ]
               (initial "s" ""))))
    (chatWindow
       (run [ Input "Kiểm tra đơn hàng"; Submit; AddToCart "A1";
              ReplySettled replied ]
            (initial "s" ""))).
Proof.
  apply (@history_shown_in_chat
           [ Input "Kiểm tra đơn hàng"; Submit; AddToCart "A1";
             ReplySettled replied ]
           (initial "s" "")).
  constructor.
Defined.

Lemma submit_twice :
  forall w,
    exec (listener Submit) (exec (listener Submit) w)
    = exec (listener Submit) w.
Proof.
  intros w. cbn [listener]. rewrite !exec_drop.
  assert (Hidle : forall w0,
             (Js.trim (chatInput w0) = "" \/ isTyping w0 = true) ->
             exec handleUserMessage w0 = w0).
  { intros w0 H. unfold exec.
    now rewrite (handleUserMessage_early_return w0 H). }
  destruct (Js.trim (chatInput w)) as [| c s] eqn:Htrim.
  - rewrite (Hidle w (or_introl Htrim)). apply Hidle. now left.
  - destruct (isTyping w) eqn:Htyping.
    + rewrite (Hidle w (or_intror Htyping)). apply Hidle. now right.
    + apply Hidle. right.
      assert (Hne : Js.trim (chatInput w) <> "")
        by (rewrite Htrim; discriminate).
      now rewrite (exec_handleUserMessage_accepted w eq_refl Hne Htyping).
Qed.

(** X19.  Clicking send again changes nothing: any number of further
    submissions right after a submission, accepted or not, leave the
    widget as the first one left it, so a message is never sent twice. *)
Theorem repeated_submit_is_ignored :
  forall (n : nat) (w : World),
    run (Submit :: repeat Submit n) w = run [Submit] w.
Proof.
  intros n w. cbn [run fold_left].
  induction n as [| n IH]; [reflexivity |].
  cbn [repeat fold_left]. rewrite submit_twice. exact IH.
Qed.

(** X21.  A complete exchange.  From a widget that awaits no reply and
    whose input is not blank, a submission followed by the settling of
    its request leaves [isTyping] off and the input empty with the send
    button disabled, so that a further click on send does nothing.  If
    the transport failed, the history has gained the user entry alone
    and the chat window the user message and the failure notice; if a
    reply was received and dispatched, the history has gained the user
    entry and the bot entry and the chat window the two messages. *)
Theorem exchange_completes :
  forall (o : FetchOutcome) (w : World),
    Js.trim (chatInput w) <> "" ->
    isTyping w = false ->
    let userMessage := Js.trim (chatInput w) in
    let w' := run [Submit; ReplySettled o] w in
    isTyping w' = false
    /\ chatInput w' = ""
    /\ sendButton_disabled w' = true
    /\ exec (listener Submit) w' = w'
    /\ (forall e,
          transport_failure o e ->
          conversationHistory w'
          = (conversationHistory w ++ [user_turn userMessage])%list
          /\ chatWindow w'
             = (chatWindow w
                ++ [ UserMessage userMessage;
                     BotMessage failure_notice false ])%list)
    /\ (forall response,
          sendUserMessage_settled o = Normal response ->
          outcome (processResponse response) w = Normal tt ->
          conversationHistory w'
          = (conversationHistory w
             ++ [user_turn userMessage; bot_turn response])%list
          /\ chatWindow w'
             = (chatWindow w
                ++ [ UserMessage userMessage;
                     BotMessage (message response) false ])%list).
Proof.
  intros o w Hne Htyping userMessage w'.
  assert (E : w' = exec (handleUserMessage_settled o)
                     (exec handleUserMessage w)).
  { subst w'. cbn [run fold_left listener]. now rewrite exec_drop. }
  rewrite (exec_handleUserMessage_accepted w eq_refl Hne Htyping) in E.
  fold userMessage in E. unfold exec in E.
  rewrite handleUserMessage_settled_run in E. cbn [snd] in E.
  assert (Hfields : isTyping w' = false /\ chatInput w' = ""
                    /\ sendButton_disabled w' = true).
  { rewrite E. destruct (sendUserMessage_settled o) as [response | e];
      [destruct (dispatch_outcome response) |]; repeat split. }
  destruct Hfields as [H1 [H2 H3]].
  repeat (split; [assumption |]).
  split; [| split].
  - cbn [listener]. rewrite exec_drop. unfold exec.
    rewrite (handleUserMessage_early_return w'); [reflexivity |].
    left. now rewrite H2.
  - intros e Hfail. apply transport_failure_throws in Hfail.
    rewrite E, Hfail.
    cbn [world_of conversationHistory chatWindow].
    now rewrite <- !app_assoc.
  - intros response Hreply Hdispatch.
    unfold outcome in Hdispatch. rewrite processResponse_run in Hdispatch.
    cbn [fst] in Hdispatch.
    rewrite E, Hreply, Hdispatch.
    cbn [world_of conversationHistory chatWindow].
    now rewrite <- !app_assoc.
Qed.

Lemma exchange_completes_witness :
  let w := initial "s" "Kiểm tra đơn hàng" in
  (conversationHistory (run [Submit; ReplySettled server_error] w)
   = (conversationHistory w ++ [user_turn "Kiểm tra đơn hàng"])%list
   /\ chatWindow (run [Submit; ReplySettled server_error] w)
      = (chatWindow w
         ++ [ UserMessage "Kiểm tra đơn hàng";
              BotMessage failure_notice false ])%list)
  /\ (conversationHistory (run [Submit; ReplySettled replied] w)
      = (conversationHistory w
         ++ [user_turn "Kiểm tra đơn hàng"; bot_turn order_reply])%list
      /\ chatWindow (run [Submit; ReplySettled replied] w)
         = (chatWindow w
            ++ [ UserMessage "Kiểm tra đơn hàng";
                 BotMessage (message order_reply) false ])%list).
Proof.
  split.
  - assert (Hne : Js.trim (chatInput (initial "s" "Kiểm tra đơn hàng")) <> "")
      by discriminate.
    apply (proj1 (proj2 (proj2 (proj2 (proj2
             (@exchange_completes server_error
                (initial "s" "Kiểm tra đơn hàng") Hne eq_refl)))))
             (HttpError 500)).
    right. left. exists {| http_status := 500; json := Normal order_reply |}.
    repeat split.
  - assert (Hne : Js.trim (chatInput (initial "s" "Kiểm tra đơn hàng")) <> "")
      by discriminate.
    apply (proj2 (proj2 (proj2 (proj2 (proj2
             (@exchange_completes replied
                (initial "s" "Kiểm tra đơn hàng") Hne eq_refl)))))
             order_reply);
      reflexivity.
Defined.

(** *** Session identity *)

Lemma toString16_digit :
  forall n : N,
    (n < 16)%N ->
    exists c, toString16 n = String c "" /\ is_hex c = true.
Proof.
  intros n H. destruct n as [| p].
  - eexists. split; reflexivity.
  - do 4 (try destruct p as [p | p |]);
      try (eexists; split; reflexivity);
      exfalso; lia.
Qed.

Lemma replace_x_matches :
  forall (random : nat -> N),
    (forall k, (random k < 16)%N) ->
    forall template k,
      matches_template template (replace_x template random k) = true.
Proof.
  intros random H template.
  induction template as [| c template IH]; intros k; [reflexivity |].
  cbn [replace_x].
  destruct (Ascii.eqb_spec c "x") as [-> | Hc].
  - destruct (toString16_digit (H k)) as [d [-> Hd]].
    cbn [String.append matches_template].
    change ("x" =? "x")%char with true. cbv iota.
    now rewrite Hd, IH.
  - cbn [matches_template].
    destruct (Ascii.eqb_spec c "x") as [-> | _]; [contradiction |].
    now rewrite Ascii.eqb_refl, IH.
Qed.

Lemma matches_template_length :
  forall template s,
    matches_template template s = true ->
    String.length s = String.length template.
Proof.
  induction template as [| c template IH]; intros [| c' s] H;
    try discriminate H; [reflexivity |].
  cbn [matches_template] in H. apply andb_true_iff in H.
  cbn [String.length]. f_equal. apply IH, H.
Qed.

(** X20.  Whatever the random draws, as long as each
    [Math.random() * 16 | 0] is one of 0..15, the session identifier has
    19 characters: four groups of four lower-case hexadecimal digits
    separated by "-". *)
Theorem generateSessionId_format :
  forall random : nat -> N,
    (forall k, (random k < 16)%N) ->
    matches_template "xxxx-xxxx-xxxx-xxxx" (generateSessionId random) = true
    /\ String.length (generateSessionId random) = 19.
Proof.
  intros random H.
  pose proof (@replace_x_matches random H "xxxx-xxxx-xxxx-xxxx" 0) as M.
  split; [exact M |].
  exact (@matches_template_length _ _ M).
Qed.

Lemma generateSessionId_format_witness :
  matches_template "xxxx-xxxx-xxxx-xxxx"
    (generateSessionId (fun k => N.of_nat (k * 7 mod 16)))
  = true
  /\ String.length (generateSessionId (fun k => N.of_nat (k * 7 mod 16)))
     = 19.
Proof.
  apply (@generateSessionId_format (fun k => N.of_nat (k * 7 mod 16))).
  intros k.
  assert (B : (k * 7 mod 16 < 16)%nat) by (apply Nat.mod_upper_bound; lia).
  lia.
Defined.

(** *** The states the widget can reach *)

Lemma startup_world :
  forall session input,
    exec DOMContentLoaded (initial session input)
    = world_of (initial session input) input (Js.trim input =? "")
        false false [] [] cleared cleared None
        [ Fetch (Head "http://localhost:5000/chat");
          SetSendDisabled (Js.trim input =? "") ].
Proof.
  intros session input.
  unfold DOMContentLoaded, exec, bind, checkAPIConnection, fetch, perform,
    updateSendButtonState.
  cbn [record initial chatInput API_URL].
  destruct (Js.trim input =? ""); reflexivity.
Qed.

Lemma identity_kept :
  forall session w w',
    transition w w' ->
    sessionId w = session /\ API_URL w = "http://localhost:5000/chat" ->
    sessionId w' = session /\ API_URL w' = "http://localhost:5000/chat".
Proof.
  intros session w w' T [H1 H2].
  destruct (transition_extends T) as [_ [G1 [G2 _]]].
  split; congruence.
Qed.

(** X22.  When the page has loaded, one [HEAD] probe has been sent to
    the endpoint and the send button is disabled exactly when the input
    is blank.  In every state the widget reaches from there, whatever
    the events: the typing indicator shows [isTyping]; at most one
    response container is active and an inactive one is empty; there is
    one [POST] and one user message in the chat for each user entry of
    the history; every request went to the endpoint with the session
    identifier generated at load; and the entries of the history appear,
    in order, in the chat window. *)
Theorem reachable_states :
  forall (session input : string) (events : list Event),
    let loaded := exec DOMContentLoaded (initial session input) in
    let w := run events loaded in
    effects loaded
    = [ Fetch (Head "http://localhost:5000/chat");
        SetSendDisabled (Js.trim input =? "") ]
    /\ sendButton_disabled loaded = (Js.trim input =? "")
    /\ typingIndicator w = isTyping w
    /\ one_surface w
    /\ one_post_per_submission w
    /\ forallb (request_of w) (effects w) = true
    /\ sublist (map chat_of (conversationHistory w)) (chatWindow w)
    /\ sessionId w = session
    /\ API_URL w = "http://localhost:5000/chat".
Proof.
  intros session input events loaded w.
  pose proof (startup_world session input) as E. fold loaded in E.
  split; [now rewrite E |]. split; [now rewrite E |].
  split; [| split; [| split; [| split; [| split]]]].
  - apply (run_invariant indicator_shows_typing typing_indicator_kept).
    now rewrite E.
  - apply (run_invariant one_surface one_surface_kept).
    rewrite E. repeat split.
  - apply (run_invariant one_post_per_submission
             one_post_per_submission_kept).
    rewrite E. split; reflexivity.
  - apply (run_invariant requests_carry_identity requests_kept).
    rewrite E. reflexivity.
  - apply (run_invariant history_in_chat history_in_chat_kept).
    rewrite E. constructor.
  - apply (run_invariant
             (fun w => sessionId w = session
                       /\ API_URL w = "http://localhost:5000/chat")
             (identity_kept (session := session))).
    now rewrite E.
Qed.
